(** * LASIF: the station query of [lasif/components/query.py] and the
    component registration of [lasif/components/project.py]

    The development embeds [QueryComponent.get_all_stations_for_event] and
    [Project.__setup_components] and states the properties of the
    coordinate resolution over that embedding.

    - Python dictionaries are finite maps with string keys ([gmap string _]);
      item access [d[k]] raises [KeyError] on a missing key.
    - Python floats are IEEE binary64 numbers ([PrimFloat.float]).
    - Exceptions are values of [exn]; a computation is a function from the
      world (the state of the inventory database and the log of the calls
      made to the other components) to a result and a new world. *)

From Stdlib Require Import Ascii String Floats.
From stdpp Require Import base gmap strings list.

(** ** Python values *)

(** The values stored in the dictionaries the components exchange: [None],
    a float, or a string. *)
Inductive pyval :=
| PyNone
| PyFloat (x : float)
| PyStr (s : string).

(** A Python [dict] with string keys. *)
Abbreviation dict := (gmap string pyval).

(** The exceptions of the modelled code. [KeyError] and [AttributeError] are
    Python's own, [LASIFNotFoundError] is imported from [lasif], and
    [DuplicateNameError] is the failure of a second registration under one
    name. *)
Inductive exn :=
| KeyError
| AttributeError
| LASIFNotFoundError
| DuplicateNameError.

Inductive result (A : Type) :=
| Ok (a : A)
| Raise (e : exn).
Arguments Ok {A} a.
Arguments Raise {A} e.

Definition result_bind {A B : Type} (r : result A) (k : A → result B) : result B :=
  match r with
  | Ok a => k a
  | Raise e => Raise e
  end.

(** [d[key]] on a dictionary. *)
Definition getitem {V : Type} (d : gmap string V) (key : string) : result V :=
  match d !! key with
  | Some v => Ok v
  | None => Raise KeyError
  end.

(** [d[key]] where the key is itself a Python value. The tables of this
    program are keyed by strings, so a key that is not a string is not
    found. *)
Definition getitem_val {V : Type} (d : gmap string V) (key : pyval) : result V :=
  match key with
  | PyStr s => getitem d s
  | _ => Raise KeyError
  end.

(** [v is not None]. *)
Definition is_not_None (v : pyval) : bool :=
  match v with
  | PyNone => false
  | _ => true
  end.

(** The truth value of [v], as [if v:] tests it: [None], zero (of either
    sign) and the empty string are false. *)
Definition truthy (v : pyval) : bool :=
  match v with
  | PyNone => false
  | PyFloat x => negb (PrimFloat.eqb x 0%float)
  | PyStr s => negb (String.eqb s "")
  end.

(** The four fields of a coordinate record. *)
Definition coordinate_fields : gset string :=
  {[ "latitude"; "longitude"; "elevation_in_m"; "local_depth_in_m" ]}.

Section Formatting.

(** [str(x)] for a float [x] is Python's built-in conversion; it is a
    parameter of the development. *)
Variable float_str : float → string.

(** [str(v)], as the [%s] conversion applies it. *)
Definition py_str (v : pyval) : string :=
  match v with
  | PyNone => "None"
  | PyFloat x => float_str x
  | PyStr s => s
  end.

(** ["%s.%s" % (a, b)] *)
Definition format_dotted (a b : pyval) : string :=
  py_str a +:+ "." +:+ py_str b.

End Formatting.

(** ** Components, the communicator and the world *)

(** The calls the query component makes to the methods of other
    components, in the order they are made. *)
Inductive call :=
| EventsGet (event_name : string)
| WaveformsGetMetadataRaw (event_name : string)
| StationsGetAllChannelsAtTime (time : pyval)
| InventoryGetAllCoordinates
| InventoryGetCoordinates (station_id : string).

(** [is_live_query station_id c]: [c] is the call
    [inventory_db.get_coordinates(station_id)]. *)
Definition is_live_query (station_id : string) (c : call) : bool :=
  match c with
  | InventoryGetCoordinates s => bool_decide (s = station_id)
  | _ => false
  end.

Definition is_snapshot_call (c : call) : bool :=
  match c with
  | InventoryGetAllCoordinates => true
  | _ => false
  end.

(** The number of elements of [l] that satisfy [f]. *)
Definition count {A : Type} (f : A → bool) (l : list A) : nat :=
  length (List.filter f l).

Section Components.

(** The state of the inventory database (its cache of coordinates), the one
    provider a query changes. *)
Context {S : Type}.

(** Modelled from the spec: the providers ([events.py], [waveforms.py],
    [stations.py], [inventory_db.py]) are not part of the sources. A
    component is given by the methods the query component calls on it,
    which are the arguments of the constructors:
    - [events.get(event_name)] returns the event or raises;
    - [waveforms.get_metadata_raw(event_name)] returns the listing;
    - [stations.get_all_channels_at_time(time)] returns the table of the
      channels, keyed by channel id;
    - [inventory_db.get_all_coordinates()] reads the cache and returns a
      dictionary of its own (a snapshot), keyed by station id;
    - [inventory_db.get_coordinates(station_id)] queries for one station and
      may change the cache.
    Every other component is known by its class name only. *)
Inductive component :=
| EventsComponent (get : string → result dict)
| WaveformsComponent (get_metadata_raw : string → list dict)
| StationsComponent (get_all_channels_at_time : pyval → gmap string dict)
| InventoryDBComponent
    (get_all_coordinates : S → gmap string dict)
    (get_coordinates : S → string → dict * S)
| OtherComponent (class_name : string).

Record world := World {
  inventory : S;
  trace : list call
}.

(** Computations: a result or an exception, and the world after it. *)
Definition M (A : Type) : Type := world → result A * world.

Definition ret {A : Type} (a : A) : M A := fun w => (Ok a, w).

Definition raise {A : Type} (e : exn) : M A := fun w => (Raise e, w).

Definition bind {A B : Type} (m : M A) (k : A → M B) : M B :=
  fun w =>
    match m w with
    | (Ok a, w') => k a w'
    | (Raise e, w') => (Raise e, w')
    end.

(** A computation that does not touch the world. *)
Definition lift {A : Type} (r : result A) : M A := fun w => (r, w).

Definition log (c : call) (w : world) : world :=
  World (inventory w) (trace w ++ [c]).

End Components.

Arguments component S : clear implicits.
Arguments world S : clear implicits.
Arguments M S A : clear implicits.

Declare Scope py_scope.
Delimit Scope py_scope with py.
Notation "'let*' x ':=' m 'in' k" := (bind m (fun x => k))
  (at level 10, x name, m at level 100, k at level 200) : py_scope.
Notation "'let?' x ':=' r 'in' k" := (result_bind r (fun x => k))
  (at level 10, x name, r at level 100, k at level 200) : py_scope.
Open Scope py_scope.

(** ** The communicator *)

Module Communicator.
Section Communicator.
Context {S : Type}.

(** Modelled from the spec: [lasif/components/communicator.py] is not part
    of the sources. The registry binds a name to one component;
    [register] fails when the name is already bound. *)
Definition register (name : string) (instance : component S)
    (comm : gmap string (component S)) : result (gmap string (component S)) :=
  match comm !! name with
  | Some _ => Raise DuplicateNameError
  | None => Ok (<[name := instance]> comm)
  end.

(** Modelled from the spec: [comm.name] fails with the not-found error when
    [name] is unbound. *)
Definition get (comm : gmap string (component S)) (name : string)
    : result (component S) :=
  match comm !! name with
  | Some c => Ok c
  | None => Raise LASIFNotFoundError
  end.

End Communicator.
End Communicator.

(** ** [lasif/components/query.py] *)

Module QueryComponent.
Section QueryComponent.
Variable float_str : float → string.
Context {S : Type}.

(** The methods the query component calls. Looking up a method on a
    component of another class raises [AttributeError]. *)
Definition attr_get (c : component S) : result (string → result dict) :=
  match c with
  | EventsComponent get => Ok get
  | _ => Raise AttributeError
  end.

Definition attr_get_metadata_raw (c : component S)
    : result (string → list dict) :=
  match c with
  | WaveformsComponent get_metadata_raw => Ok get_metadata_raw
  | _ => Raise AttributeError
  end.

Definition attr_get_all_channels_at_time (c : component S)
    : result (pyval → gmap string dict) :=
  match c with
  | StationsComponent get_all_channels_at_time => Ok get_all_channels_at_time
  | _ => Raise AttributeError
  end.

Definition attr_get_all_coordinates (c : component S)
    : result (S → gmap string dict) :=
  match c with
  | InventoryDBComponent get_all_coordinates _ => Ok get_all_coordinates
  | _ => Raise AttributeError
  end.

Definition attr_get_coordinates (c : component S)
    : result (S → string → dict * S) :=
  match c with
  | InventoryDBComponent _ get_coordinates => Ok get_coordinates
  | _ => Raise AttributeError
  end.

(** The calls themselves: each is logged; only the live inventory query
    changes the state of its component. *)
Definition call_get (get : string → result dict) (event_name : string)
    : M S dict :=
  fun w => (get event_name, log (EventsGet event_name) w).

Definition call_get_metadata_raw (get_metadata_raw : string → list dict)
    (event_name : string) : M S (list dict) :=
  fun w => (Ok (get_metadata_raw event_name),
            log (WaveformsGetMetadataRaw event_name) w).

Definition call_get_all_channels_at_time
    (get_all_channels_at_time : pyval → gmap string dict) (time : pyval)
    : M S (gmap string dict) :=
  fun w => (Ok (get_all_channels_at_time time),
            log (StationsGetAllChannelsAtTime time) w).

Definition call_get_all_coordinates
    (get_all_coordinates : S → gmap string dict) : M S (gmap string dict) :=
  fun w => (Ok (get_all_coordinates (inventory w)),
            log InventoryGetAllCoordinates w).

Definition call_get_coordinates (get_coordinates : S → string → dict * S)
    (station_id : string) : M S dict :=
  fun w =>
    let '(coords, s) := get_coordinates (inventory w) station_id in
    (Ok coords, World s (trace w ++ [InventoryGetCoordinates station_id])).

(** [station_id = "%s.%s" % (waveform["network"], waveform["station"])] *)
Definition station_id_of (waveform : dict) : result string :=
  let? network := getitem waveform "network" in
  let? station := getitem waveform "station" in
  Ok (format_dotted float_str network station).

(** [station_coordinates[waveform["channel_id"]]], the expression under
    [try]. *)
Definition stat_coords_of (station_coordinates : gmap string dict)
    (waveform : dict) : result dict :=
  let? channel_id := getitem waveform "channel_id" in
  getitem_val station_coordinates channel_id.

(** [if coords["latitude"]: stations[station_id] = coords], the end of the
    two inventory branches. *)
Definition store_if_latitude (stations : gmap string dict)
    (station_id : string) (coords : dict) : result (gmap string dict) :=
  let? latitude := getitem coords "latitude" in
  if truthy latitude then Ok (<[station_id := coords]> stations)
  else Ok stations.

(** The body of [for waveform in waveform_metadata:], lines 63 to 93. It
    returns the dictionary [stations] after the iteration; [continue] is
    the return of the unchanged or updated dictionary. *)
Definition loop_body (comm : gmap string (component S))
    (station_coordinates inventory_coordinates : gmap string dict)
    (stations : gmap string dict) (waveform : dict)
    : M S (gmap string dict) :=
  let* station_id := lift (station_id_of waveform) in
  match stations !! station_id with
  | Some _ => ret stations
  | None =>
    match stat_coords_of station_coordinates waveform with
    | Raise KeyError => ret stations
    | Raise e => raise e
    | Ok stat_coords =>
      let* latitude := lift (getitem stat_coords "latitude") in
      if is_not_None latitude then
        ret (<[station_id := stat_coords]> stations)
      else
        let* latitude := lift (getitem waveform "latitude") in
        if is_not_None latitude then
          ret (<[station_id := waveform]> stations)
        else
          match inventory_coordinates !! station_id with
          | Some coords =>
            lift (store_if_latitude stations station_id coords)
          | None =>
            let* inventory_db := lift (Communicator.get comm "inventory_db") in
            let* get_coordinates := lift (attr_get_coordinates inventory_db) in
            let* coords := call_get_coordinates get_coordinates station_id in
            lift (store_if_latitude stations station_id coords)
          end
    end
  end.

(** The loop over the listing, from the dictionary built so far. *)
Fixpoint for_waveforms (comm : gmap string (component S))
    (station_coordinates inventory_coordinates : gmap string dict)
    (waveform_metadata : list dict) (stations : gmap string dict)
    : M S (gmap string dict) :=
  match waveform_metadata with
  | [] => ret stations
  | waveform :: rest =>
    let* stations' :=
      loop_body comm station_coordinates inventory_coordinates
        stations waveform in
    for_waveforms comm station_coordinates inventory_coordinates
      rest stations'
  end.

(** [QueryComponent.get_all_stations_for_event], lines 53 to 94. In
    [self.comm.stations.get_all_channels_at_time(event["origin_time"])] the
    method is looked up before the argument is evaluated. *)
Definition get_all_stations_for_event (comm : gmap string (component S))
    (event_name : string) : M S (gmap string dict) :=
  let* events := lift (Communicator.get comm "events") in
  let* get := lift (attr_get events) in
  let* event := call_get get event_name in
  let* waveforms := lift (Communicator.get comm "waveforms") in
  let* get_metadata_raw := lift (attr_get_metadata_raw waveforms) in
  let* waveform_metadata := call_get_metadata_raw get_metadata_raw event_name in
  let* stations_c := lift (Communicator.get comm "stations") in
  let* get_all_channels_at_time :=
    lift (attr_get_all_channels_at_time stations_c) in
  let* origin_time := lift (getitem event "origin_time") in
  let* station_coordinates :=
    call_get_all_channels_at_time get_all_channels_at_time origin_time in
  let* inventory_db := lift (Communicator.get comm "inventory_db") in
  let* get_all_coordinates := lift (attr_get_all_coordinates inventory_db) in
  let* inventory_coordinates := call_get_all_coordinates get_all_coordinates in
  for_waveforms comm station_coordinates inventory_coordinates
    waveform_metadata ∅.

End QueryComponent.
End QueryComponent.

(** ** [lasif/components/project.py] *)

Module Project.
Section Project.
Context {S : Type}.

(** The contents of the project folders decide what the events and the
    waveforms components answer; they are the parameters of the setup. *)
Variable events_get : string → result dict.
Variable waveforms_get_metadata_raw : string → list dict.

(** Modelled from the spec: [lasif/components/component.py] is not part of
    the sources. Constructing a component with [communicator] and
    [component_name] registers the new instance under that name. *)
Definition construct (component_name : string) (instance : component S)
    (comm : gmap string (component S)) : result (gmap string (component S)) :=
  Communicator.register component_name instance comm.

(** [Project.__setup_components], lines 138 to 184: the constructor calls
    in the order of the source. *)
Definition __setup_components (comm : gmap string (component S))
    : result (gmap string (component S)) :=
  (* Basic components. *)
  let? comm := construct "events" (EventsComponent events_get) comm in
  let? comm :=
    construct "waveforms" (WaveformsComponent waveforms_get_metadata_raw)
      comm in
  let? comm := construct "kernels" (OtherComponent "KernelsComponent") comm in
  let? comm :=
    construct "iterations" (OtherComponent "IterationsComponent") comm in
  (* Action and query components. *)
  let? comm := construct "query" (OtherComponent "QueryComponent") comm in
  let? comm :=
    construct "visualizations" (OtherComponent "VisualizationsComponent")
      comm in
  let? comm := construct "actions" (OtherComponent "ActionsComponent") comm in
  let? comm :=
    construct "validator" (OtherComponent "ValidatorComponent") comm in
  let? comm :=
    construct "wins_and_adj_sources"
      (OtherComponent "WindowsAndAdjointSourcesComponent") comm in
  (* Data downloading component. *)
  construct "downloads" (OtherComponent "DownloadsComponent") comm.

(** [Project.__init__], lines 74 to 78: a new communicator, the project
    registers itself, then the components are set up. The handling of the
    paths and of the configuration file around these lines does not touch
    the communicator and is left out. *)
Definition __init__ : result (gmap string (component S)) :=
  let? comm := construct "project" (OtherComponent "Project") ∅ in
  __setup_components comm.

End Project.
End Project.

Import QueryComponent.

(** ** One iteration of the loop, as a relation *)

Section Iteration.
Variable float_str : float → string.
Context {S : Type}.
Variable comm : gmap string (component S).
Variables station_coordinates inventory_coordinates : gmap string dict.

(** [iteration stations waveform w stations' w']: the body of the loop, run
    on [waveform] with the dictionary [stations] in the world [w], ends
    without an exception with the dictionary [stations'] in the world [w'].
    One constructor per path through lines 63 to 93. *)
Inductive iteration (stations : gmap string dict) (waveform : dict)
    (w : world S) : gmap string dict → world S → Prop :=
| iteration_seen station_id record :
    station_id_of float_str waveform = Ok station_id →
    stations !! station_id = Some record →
    iteration stations waveform w stations w
| iteration_no_station_file station_id :
    station_id_of float_str waveform = Ok station_id →
    stations !! station_id = None →
    stat_coords_of station_coordinates waveform = Raise KeyError →
    iteration stations waveform w stations w
| iteration_station_file station_id stat_coords latitude :
    station_id_of float_str waveform = Ok station_id →
    stations !! station_id = None →
    stat_coords_of station_coordinates waveform = Ok stat_coords →
    stat_coords !! "latitude" = Some latitude →
    is_not_None latitude = true →
    iteration stations waveform w (<[station_id := stat_coords]> stations) w
| iteration_waveform station_id stat_coords latitude :
    station_id_of float_str waveform = Ok station_id →
    stations !! station_id = None →
    stat_coords_of station_coordinates waveform = Ok stat_coords →
    stat_coords !! "latitude" = Some PyNone →
    waveform !! "latitude" = Some latitude →
    is_not_None latitude = true →
    iteration stations waveform w (<[station_id := waveform]> stations) w
| iteration_snapshot station_id stat_coords coords latitude :
    station_id_of float_str waveform = Ok station_id →
    stations !! station_id = None →
    stat_coords_of station_coordinates waveform = Ok stat_coords →
    stat_coords !! "latitude" = Some PyNone →
    waveform !! "latitude" = Some PyNone →
    inventory_coordinates !! station_id = Some coords →
    coords !! "latitude" = Some latitude →
    iteration stations waveform w
      (if truthy latitude then <[station_id := coords]> stations
       else stations) w
| iteration_query station_id stat_coords get_all_coordinates get_coordinates
    coords s latitude :
    station_id_of float_str waveform = Ok station_id →
    stations !! station_id = None →
    stat_coords_of station_coordinates waveform = Ok stat_coords →
    stat_coords !! "latitude" = Some PyNone →
    waveform !! "latitude" = Some PyNone →
    inventory_coordinates !! station_id = None →
    comm !! "inventory_db"
      = Some (InventoryDBComponent get_all_coordinates get_coordinates) →
    get_coordinates (inventory w) station_id = (coords, s) →
    coords !! "latitude" = Some latitude →
    iteration stations waveform w
      (if truthy latitude then <[station_id := coords]> stations
       else stations)
      (World s (trace w ++ [InventoryGetCoordinates station_id])).

End Iteration.

(** ** Where a record of the result comes from, and which entries reach
    the inventory *)

Section Sources.
Variable float_str : float → string.
Context {S : Type}.
Variable comm : gmap string (component S).
Variables station_coordinates inventory_coordinates : gmap string dict.
Variable waveform_metadata : list dict.

(** [source station_id record]: [record] is what one of the four places
    holds for [station_id]: the station file of the channel of one of the
    entries of the station, such an entry itself, the snapshot of the
    inventory, or the answer to a live query. *)
Inductive source (station_id : string) (record : dict) : Prop :=
| source_station_file waveform latitude :
    waveform ∈ waveform_metadata →
    station_id_of float_str waveform = Ok station_id →
    stat_coords_of station_coordinates waveform = Ok record →
    record !! "latitude" = Some latitude →
    is_not_None latitude = true →
    source station_id record
| source_waveform latitude :
    record ∈ waveform_metadata →
    station_id_of float_str record = Ok station_id →
    record !! "latitude" = Some latitude →
    is_not_None latitude = true →
    source station_id record
| source_snapshot latitude :
    inventory_coordinates !! station_id = Some record →
    record !! "latitude" = Some latitude →
    truthy latitude = true →
    source station_id record
| source_query get_all_coordinates get_coordinates s latitude :
    comm !! "inventory_db"
      = Some (InventoryDBComponent get_all_coordinates get_coordinates) →
    inventory_coordinates !! station_id = None →
    (get_coordinates s station_id).1 = record →
    record !! "latitude" = Some latitude →
    truthy latitude = true →
    source station_id record.

(** [entry_of station_id waveform]: the entry belongs to the station. *)
Definition entry_of (station_id : string) (waveform : dict) : bool :=
  match station_id_of float_str waveform with
  | Ok s => bool_decide (s = station_id)
  | Raise _ => false
  end.

(** The channel of the entry has a station file, and the latitude of the
    station file or of the entry is not null: lines 74 to 80 resolve the
    station. *)
Definition resolves_early (waveform : dict) : bool :=
  match stat_coords_of station_coordinates waveform with
  | Ok stat_coords =>
    match stat_coords !! "latitude" with
    | Some latitude =>
      is_not_None latitude ||
      match waveform !! "latitude" with
      | Some latitude' => is_not_None latitude'
      | None => false
      end
    | None => false
    end
  | Raise _ => false
  end.

(** The channel of the entry has a station file, and the latitudes of the
    station file and of the entry are both null: the iteration goes on to
    the inventory. *)
Definition falls_through (waveform : dict) : bool :=
  match stat_coords_of station_coordinates waveform with
  | Ok stat_coords =>
    match stat_coords !! "latitude", waveform !! "latitude" with
    | Some PyNone, Some PyNone => true
    | _, _ => false
    end
  | Raise _ => false
  end.

(** The listing up to the first entry of the station that resolves it from
    the station file or from the waveform metadata. *)
Fixpoint until_resolved (station_id : string) (listing : list dict)
    : list dict :=
  match listing with
  | [] => []
  | waveform :: rest =>
    if entry_of station_id waveform && resolves_early waveform then []
    else waveform :: until_resolved station_id rest
  end.

(** The dictionaries hold the keys the loop reads: every entry of the
    listing has a network, a station and a latitude, and every record of
    the station files, of the snapshot and of a live query has a
    latitude (which may be [None]). *)
Definition keys_present : Prop :=
  (∀ waveform,
     waveform ∈ waveform_metadata →
     is_Some (waveform !! "network") ∧ is_Some (waveform !! "station") ∧
     is_Some (waveform !! "latitude")) ∧
  (∀ channel_id stat_coords,
     station_coordinates !! channel_id = Some stat_coords →
     is_Some (stat_coords !! "latitude")) ∧
  (∀ station_id coords,
     inventory_coordinates !! station_id = Some coords →
     is_Some (coords !! "latitude")) ∧
  (∃ get_all_coordinates get_coordinates,
     comm !! "inventory_db"
       = Some (InventoryDBComponent get_all_coordinates get_coordinates) ∧
     ∀ s station_id,
       is_Some ((get_coordinates s station_id).1 !! "latitude")).

End Sources.

(** ** The setting of one call *)

Section Setting.
Context {S : Type}.

(** The four calls that precede the loop, lines 53 to 59. *)
Definition collected (event_name : string) (origin_time : pyval) : list call :=
  [EventsGet event_name; WaveformsGetMetadataRaw event_name;
   StationsGetAllChannelsAtTime origin_time; InventoryGetAllCoordinates].

(** The world in which the loop starts. *)
Definition loop_start (w : world S) (event_name : string)
    (origin_time : pyval) : world S :=
  World (inventory w) (trace w ++ collected event_name origin_time).

(** [providers_answer comm event_name w ...]: the communicator holds the
    four providers, the event exists and has an origin time, and the
    listing, the table of the station files, the snapshot of the inventory
    and the live query are what the providers answer to the call on
    [event_name] in the world [w]. *)
Definition providers_answer (comm : gmap string (component S))
    (event_name : string) (w : world S) (origin_time : pyval)
    (waveform_metadata : list dict)
    (station_coordinates inventory_coordinates : gmap string dict)
    (get_coordinates : S → string → dict * S) : Prop :=
  ∃ events_get get_metadata_raw get_all_channels_at_time get_all_coordinates
    event,
    comm !! "events" = Some (EventsComponent events_get) ∧
    comm !! "waveforms" = Some (WaveformsComponent get_metadata_raw) ∧
    comm !! "stations" = Some (StationsComponent get_all_channels_at_time) ∧
    comm !! "inventory_db"
      = Some (InventoryDBComponent get_all_coordinates get_coordinates) ∧
    events_get event_name = Ok event ∧
    event !! "origin_time" = Some origin_time ∧
    get_metadata_raw event_name = waveform_metadata ∧
    get_all_channels_at_time origin_time = station_coordinates ∧
    get_all_coordinates (inventory w) = inventory_coordinates.

End Setting.

(** ** Example projects *)

Module Examples.

Definition coordinates
    (latitude longitude elevation_in_m local_depth_in_m : pyval) : dict :=
  {[ "latitude" := latitude; "longitude" := longitude;
     "elevation_in_m" := elevation_in_m;
     "local_depth_in_m" := local_depth_in_m ]}.

(** A record with every field [None]. *)
Definition no_coordinates : dict := coordinates PyNone PyNone PyNone PyNone.

(** An entry of the listing of the waveforms. *)
Definition waveform (network station channel_id : string)
    (latitude longitude : pyval) : dict :=
  {[ "network" := PyStr network; "station" := PyStr station;
     "channel_id" := PyStr channel_id;
     "latitude" := latitude; "longitude" := longitude;
     "elevation_in_m" := PyNone; "local_depth_in_m" := PyNone ]}.

(** The examples format no float; any conversion serves. *)
Definition float_str (x : float) : string := "".

(** An events component that knows the listed events, all with one origin
    time. *)
Definition origin_time : pyval := PyFloat 1269439860%float.

Definition events_get (known : list string) (event_name : string)
    : result dict :=
  if bool_decide (event_name ∈ known) then
    Ok {[ "event_name" := PyStr event_name; "origin_time" := origin_time ]}
  else Raise LASIFNotFoundError.

(** An inventory database whose state is its cache, a table of rows keyed
    by station id. The dictionaries it hands out are built from the rows.
    A station missing from the cache is looked up in [remote]; the answer,
    or a row without coordinates, is cached and returned. *)
Record row := Row {
  row_latitude : pyval;
  row_longitude : pyval;
  row_elevation_in_m : pyval;
  row_local_depth_in_m : pyval
}.

Definition row_dict (r : row) : dict :=
  coordinates (row_latitude r) (row_longitude r) (row_elevation_in_m r)
    (row_local_depth_in_m r).

Definition no_row : row := Row PyNone PyNone PyNone PyNone.

Definition get_all_coordinates (cache : gmap string row)
    : gmap string dict := row_dict <$> cache.

Definition get_coordinates (remote cache : gmap string row)
    (station_id : string) : dict * gmap string row :=
  match cache !! station_id with
  | Some r => (row_dict r, cache)
  | None =>
    let r := default no_row (remote !! station_id) in
    (row_dict r, <[station_id := r]> cache)
  end.

(** A communicator with the four providers and the query component. *)
Definition project (known : list string) (listing : list dict)
    (station_files : gmap string dict) (remote : gmap string row)
    : gmap string (component (gmap string row)) :=
  {[ "events" := EventsComponent (events_get known);
     "waveforms" := WaveformsComponent (fun _ => listing);
     "stations" := StationsComponent (fun _ => station_files);
     "inventory_db" :=
       InventoryDBComponent get_all_coordinates (get_coordinates remote);
     "query" := OtherComponent "QueryComponent" ]}.

(** Event E1: two channels of NET.STA. The first has a station file
    without coordinates, the second one with latitude 10. The cache of the
    inventory holds the station with latitude 3. *)
Definition E1_listing : list dict :=
  [waveform "NET" "STA" "NET.STA..BHE" PyNone PyNone;
   waveform "NET" "STA" "NET.STA..BHZ" PyNone PyNone].

Definition E1_file : dict :=
  coordinates (PyFloat 10%float) (PyFloat 20%float) (PyFloat 0%float)
    (PyFloat 0%float).

Definition E1_station_files : gmap string dict :=
  {[ "NET.STA..BHE" := no_coordinates; "NET.STA..BHZ" := E1_file ]}.

Definition E1_row : row := Row (PyFloat 3%float) (PyFloat 4%float) PyNone PyNone.

Definition E1_cached : dict := row_dict E1_row.

Definition E1_cache : gmap string row := {[ "NET.STA" := E1_row ]}.

Definition E1_project := project ["E1"] E1_listing E1_station_files ∅.

(** Event E2: one channel of NET.STB with latitude 5 in the waveform file
    and no station file. *)
Definition E2_waveform : dict :=
  waveform "NET" "STB" "NET.STB..BHZ" (PyFloat 5%float) (PyFloat 6%float).

Definition E2_project := project ["E2"] [E2_waveform] ∅ ∅.

(** Event E3: as E2, with a station file without coordinates. *)
Definition E3_station_files : gmap string dict :=
  {[ "NET.STB..BHZ" := no_coordinates ]}.

Definition E3_project := project ["E3"] [E2_waveform] E3_station_files ∅.

(** Event E4: one channel of NET.EQU and one of NET.ZER, both with station
    files without coordinates. The cache holds NET.EQU on the equator; a
    live query for NET.ZER answers latitude 0 as well. *)
Definition E4_listing : list dict :=
  [waveform "NET" "EQU" "NET.EQU..BHE" PyNone PyNone;
   waveform "NET" "ZER" "NET.ZER..BHZ" PyNone PyNone].

Definition E4_station_files : gmap string dict :=
  {[ "NET.EQU..BHE" := no_coordinates; "NET.ZER..BHZ" := no_coordinates ]}.

Definition E4_equator : row :=
  Row (PyFloat 0%float) (PyFloat 9.5%float) (PyFloat 12%float)
    (PyFloat 0%float).

Definition E4_cache : gmap string row := {[ "NET.EQU" := E4_equator ]}.

Definition E4_remote : gmap string row := {[ "NET.ZER" := E4_equator ]}.

Definition E4_project :=
  project ["E4"] E4_listing E4_station_files E4_remote.

(** Event E5: two channels of NET.UNK with station files without
    coordinates. [E5_cache] holds the station without coordinates, as a
    query that found nothing leaves it. *)
Definition E5_listing : list dict :=
  [waveform "NET" "UNK" "NET.UNK..BHE" PyNone PyNone;
   waveform "NET" "UNK" "NET.UNK..BHZ" PyNone PyNone].

Definition E5_station_files : gmap string dict :=
  {[ "NET.UNK..BHE" := no_coordinates; "NET.UNK..BHZ" := no_coordinates ]}.

Definition E5_cache : gmap string row := {[ "NET.UNK" := no_row ]}.

Definition E5_project := project ["E5"] E5_listing E5_station_files ∅.

(** Event E6: no waveforms. *)
Definition E6_project := project ["E6"] [] ∅ ∅.

(** The worlds in which the examples run: an empty cache and no call made
    yet, or the cache of the example. *)
Definition empty_world : world (gmap string row) := World ∅ [].

Definition E1_world : world (gmap string row) := World E1_cache [].

Definition E4_world : world (gmap string row) := World E4_cache [].

Definition E5_world : world (gmap string row) := World E5_cache [].

(** The states of the cache in which NET.UNK is not known or known
    without coordinates. *)
Definition E5_unresolved (cache : gmap string row) : Prop :=
  cache !! "NET.UNK" = None ∨ cache !! "NET.UNK" = Some no_row.

End Examples.

(** ** More example projects *)

Module MoreExamples.
Import Examples.

(** Event E7: the entry of E2 without its network. *)
Definition E7_waveform : dict := delete "network" E2_waveform.

Definition E7_project := project ["E7"] [E7_waveform] E3_station_files ∅.

End MoreExamples.

(** ** Python strings and paths *)

Module Py.

(** [needle in haystack], for two strings. *)
Fixpoint contains (needle haystack : string) : bool :=
  String.prefix needle haystack ||
  match haystack with
  | EmptyString => false
  | String _ rest => contains needle rest
  end.

(** [s.startswith("/")] and [s.endswith("/")]. *)
Definition startswith_sep (s : string) : bool :=
  match s with
  | String c _ => Ascii.eqb c "/"%char
  | EmptyString => false
  end.

Fixpoint endswith_sep (s : string) : bool :=
  match s with
  | EmptyString => false
  | String c EmptyString => Ascii.eqb c "/"%char
  | String _ rest => endswith_sep rest
  end.

(** [os.path.join(a, b)] of [posixpath]: an absolute [b] replaces [a];
    otherwise [b] is appended, after a separator unless [a] is empty or
    ends with one. It is also [str(a / b)] of [pathlib] for an absolute
    path [a] as [pathlib] holds it and a plain name [b]. *)
Definition join (a b : string) : string :=
  if startswith_sep b then b
  else if String.eqb a "" || endswith_sep a then a +:+ b
  else a +:+ "/" +:+ b.

(** [s.replace(old, new)] for two characters. *)
Fixpoint replace (old new : Ascii.ascii) (s : string) : string :=
  match s with
  | EmptyString => EmptyString
  | String c rest =>
    String (if Ascii.eqb c old then new else c) (replace old new rest)
  end.

(** [s.split(sep)[0]] for a character [sep]: the part of [s] before the
    first [sep], all of [s] when there is none. *)
Fixpoint before_first (sep : Ascii.ascii) (s : string) : string :=
  match s with
  | EmptyString => EmptyString
  | String c rest =>
    if Ascii.eqb c sep then EmptyString else String c (before_first sep rest)
  end.

End Py.

(** ** The project object and its environment *)

(** What a method of [Project] can raise: an exception of the query part,
    [LASIFError], or the exception of a library or of the operating
    system, known by its name. *)
Inductive failure :=
| Exn (e : exn)
| LASIFError
| External (name : string).

Inductive outcome (A : Type) :=
| Return (a : A)
| Throw (f : failure).
Arguments Return {A} a.
Arguments Throw {A} f.

(** The argument [init_project] of [Project.__init__]: a boolean, or the
    name of the new project. *)
Inductive init_arg :=
| InitBool (b : bool)
| InitName (name : string).

(** [if init_project:] *)
Definition init_truthy (a : init_arg) : bool :=
  match a with
  | InitBool b => b
  | InitName name => negb (String.eqb name "")
  end.

(** The values of a configuration: what [toml] writes and reads. *)
Unset Elimination Schemes.
Inductive toml :=
| TBool (b : bool)
| TStr (s : string)
| TFloat (x : float)
| TList (items : list toml)
| TTable (items : list (string * toml)).
Set Elimination Schemes.

Definition init_toml (a : init_arg) : toml :=
  match a with
  | InitBool b => TBool b
  | InitName name => TStr name
  end.

(** [d[key]] on a dictionary with its keys in insertion order. *)
Fixpoint assoc {V : Type} (d : list (string * V)) (key : string) : option V :=
  match d with
  | [] => None
  | (k, v) :: rest => if String.eqb k key then Some v else assoc rest key
  end.

(** [t[key]] on a value read from a configuration. *)
Definition toml_getitem (t : toml) (key : string) : outcome toml :=
  match t with
  | TTable items =>
    match assoc items key with
    | Some v => Return v
    | None => Throw (Exn KeyError)
    end
  | _ => Throw (External "TypeError")
  end.

(** An attribute of a module of project functions. *)
Inductive attribute (Fn : Type) :=
| Callable (f : Fn)
| NotCallable.
Arguments Callable {Fn} f.
Arguments NotCallable {Fn}.

(** The calls that change the file system. *)
Inductive os_call :=
| Makedirs (path : string)
| Write (path text : string)
| Copy (src dst : string)
| LoadSource (filename : string).

(** The environment of a project: the file system, with states [F], the
    interpreter, with states [Interp] (the table of the loaded modules, the
    filters and the registry of the warnings), and the libraries. None of
    it is part of the sources; the methods of [Project] are written over
    these operations.
    - [path_exists]: [os.path.exists(p)] and [p.exists()];
    - [makedirs]: [os.makedirs(p)];
    - [write]: [open(p, "w")] and the writing of the text;
    - [read]: [open(p, "r")] and the reading of the text;
    - [glob_py]: the names of the entries that [directory.glob("*.py")]
      yields;
    - [copy]: [shutil.copy(src, dst)];
    - [load_source]: [imp.load_source("_lasif_fct_template", filename)].
      It executes the file in the module of that name, which is the same
      module at every call, so that what an earlier load has defined is
      still there; it may write the byte code next to the file; it gives
      the attributes of the module. The result depends on the file system
      and on the interpreter, and the call changes both;
    - [warn]: [warnings.warn(message, LASIFWarning)]. Depending on the
      filters and on the registry of the interpreter it shows the message,
      stays silent, or raises;
    - [absolute]: [path.absolute()];
    - [lower]: [s.lower()];
    - [toml_dumps] and [toml_loads]: [toml.dump] and [toml.load];
    - [ExodusDomain]: [lasif.domain.ExodusDomain(mesh_file)];
    - [function_templates]: the folder of the templates, next to the
      package;
    - [events_answer] and [waveforms_answer]: what [events.get] and
      [waveforms.get_metadata_raw] of the components answer.
    A call that changes the file system or the interpreter returns the
    new state also when it fails. *)
Class Environment (F Interp Fn Domain : Type) := {
  path_exists : F → string → bool;
  makedirs : F → string → outcome unit * F;
  write : F → string → string → outcome unit * F;
  read : F → string → outcome string;
  glob_py : F → string → list string;
  copy : F → string → string → outcome unit * F;
  load_source :
    F → Interp → string → outcome (gmap string (attribute Fn)) * F * Interp;
  warn : Interp → string → outcome unit * Interp;
  absolute : string → string;
  lower : string → string;
  toml_dumps : toml → string;
  toml_loads : string → outcome toml;
  ExodusDomain : toml → outcome Domain;
  function_templates : string;
  events_answer : string → result dict;
  waveforms_answer : string → list dict
}.

Module ProjectObject.
Section ProjectObject.
Context {S F Interp Fn Domain : Type} `{!Environment F Interp Fn Domain}.

(** A project object and the world around it: the attributes that
    [__init__] sets ([None] while unset), the file system, the calls that
    changed it, the messages given to [warnings.warn], and the
    interpreter. *)
Record state := State {
  paths : list (string * string);
  comm : option (gmap string (component S));
  config : option toml;
  domain : option Domain;
  project_function_cache : option (gmap string (attribute Fn));
  files : F;
  calls : list os_call;
  warnings : list string;
  interp : Interp
}.

Definition set_paths (v : list (string * string)) (st : state) : state :=
  State v (comm st) (config st) (domain st) (project_function_cache st)
    (files st) (calls st) (warnings st) (interp st).

Definition set_comm (v : gmap string (component S)) (st : state) : state :=
  State (paths st) (Some v) (config st) (domain st)
    (project_function_cache st) (files st) (calls st) (warnings st) (interp st).

Definition set_config (v : toml) (st : state) : state :=
  State (paths st) (comm st) (Some v) (domain st)
    (project_function_cache st) (files st) (calls st) (warnings st) (interp st).

Definition set_domain (v : Domain) (st : state) : state :=
  State (paths st) (comm st) (config st) (Some v)
    (project_function_cache st) (files st) (calls st) (warnings st) (interp st).

Definition set_project_function_cache (v : gmap string (attribute Fn))
    (st : state) : state :=
  State (paths st) (comm st) (config st) (domain st) (Some v)
    (files st) (calls st) (warnings st) (interp st).

(** A change of the file system, with the call that made it. *)
Definition changed (fs : F) (c : os_call) (st : state) : state :=
  State (paths st) (comm st) (config st) (domain st)
    (project_function_cache st) fs (calls st ++ [c]) (warnings st)
    (interp st).

(** A call to [warnings.warn], with the interpreter as it leaves it. *)
Definition warned (i : Interp) (message : string) (st : state) : state :=
  State (paths st) (comm st) (config st) (domain st)
    (project_function_cache st) (files st) (calls st)
    (warnings st ++ [message]) i.

(** A call to [imp.load_source], with the file system and the interpreter
    as it leaves them. *)
Definition loaded (fs : F) (i : Interp) (filename : string) (st : state)
    : state :=
  State (paths st) (comm st) (config st) (domain st)
    (project_function_cache st) fs (calls st ++ [LoadSource filename])
    (warnings st) i.

(** The state with another file system, and with another file system
    and other calls made. *)
Definition with_files (fs : F) (st : state) : state :=
  State (paths st) (comm st) (config st) (domain st)
    (project_function_cache st) fs (calls st) (warnings st) (interp st).

Definition with_world (fs : F) (cs : list os_call) (st : state) : state :=
  State (paths st) (comm st) (config st) (domain st)
    (project_function_cache st) fs cs (warnings st) (interp st).

(** What the properties below ask of the environment, where they ask
    something: a successful [makedirs] leaves the path existing and
    removes nothing; a text written is the text read; the configuration
    [t] written by [toml] is the configuration read. *)
Definition makedirs_creates : Prop :=
  ∀ fs path fs',
    makedirs fs path = (Return tt, fs') →
    path_exists fs' path = true ∧
    ∀ other, path_exists fs other = true → path_exists fs' other = true.

Definition read_after_write : Prop :=
  ∀ fs path text fs',
    write fs path text = (Return tt, fs') → read fs' path = Return text.

Definition toml_round_trip (t : toml) : Prop :=
  toml_loads (toml_dumps t) = Return t.

(** The methods are computations over the state. *)
Definition PM (A : Type) : Type := state → outcome A * state.

Definition pret {A : Type} (a : A) : PM A := fun st => (Return a, st).

Definition throw {A : Type} (f : failure) : PM A := fun st => (Throw f, st).

Definition pbind {A B : Type} (m : PM A) (k : A → PM B) : PM B :=
  fun st =>
    match m st with
    | (Return a, st') => k a st'
    | (Throw f, st') => (Throw f, st')
    end.

Definition plift {A : Type} (o : outcome A) : PM A := fun st => (o, st).

Local Notation "'let!' x ':=' m 'in' k" := (pbind m (fun x => k))
  (at level 10, x name, m at level 100, k at level 200).
Local Notation "m ';;' k" := (pbind m (fun _ => k))
  (at level 100, k at level 200, right associativity).

(** [self.paths[key]] *)
Definition paths_getitem (key : string) : PM string :=
  fun st =>
    match assoc (paths st) key with
    | Some path => (Return path, st)
    | None => (Throw (Exn KeyError), st)
    end.

(** The calls to the environment. *)
Definition do_exists (path : string) : PM bool :=
  fun st => (Return (path_exists (files st) path), st).

Definition do_makedirs (path : string) : PM unit :=
  fun st =>
    let '(r, fs) := makedirs (files st) path in
    (r, changed fs (Makedirs path) st).

Definition do_write (path text : string) : PM unit :=
  fun st =>
    let '(r, fs) := write (files st) path text in
    (r, changed fs (Write path text) st).

Definition do_copy (src dst : string) : PM unit :=
  fun st =>
    let '(r, fs) := copy (files st) src dst in
    (r, changed fs (Copy src dst) st).

Definition do_read (path : string) : PM string :=
  fun st => (read (files st) path, st).

Definition do_load_source (filename : string)
    : PM (gmap string (attribute Fn)) :=
  fun st =>
    let '(r, fs, i) := load_source (files st) (interp st) filename in
    (r, loaded fs i filename st).

Definition do_warn (message : string) : PM unit :=
  fun st =>
    let '(r, i) := warn (interp st) message in
    (r, warned i message st).

(** [Project.__setup_paths], lines 186 to 208. *)
Definition __setup_paths (root_path : string) : PM unit :=
  fun st =>
    (Return tt,
     set_paths
       [("root", root_path);
        ("data", Py.join root_path "DATA");
        ("logs", Py.join root_path "LOGS");
        ("iterations", Py.join root_path "ITERATIONS");
        ("synthetics", Py.join root_path "SYNTHETICS");
        ("kernels", Py.join root_path "KERNELS");
        ("output", Py.join root_path "OUTPUT");
        ("functions", Py.join root_path "FUNCTIONS");
        ("config_file", Py.join root_path "lasif_config.toml");
        ("windows_and_adjoint_sources",
         Py.join root_path "ADJOINT_SOURCES_AND_WINDOWS")] st).

(** The loop of [Project.__update_folder_structure], lines 214 to 217, over
    the items of [self.paths]. *)
Fixpoint update_folders (items : list (string * string)) : PM unit :=
  match items with
  | [] => pret tt
  | (name, path) :: rest =>
    if Py.contains "file" name then update_folders rest
    else
      let! present := do_exists path in
      if present then update_folders rest
      else do_makedirs path;; update_folders rest
  end.

(** [Project.__update_folder_structure], lines 210 to 217. *)
Definition __update_folder_structure : PM unit :=
  fun st => update_folders (paths st) st.

(** The configuration of a new project, lines 227 to 241. *)
Definition new_config (project_name : init_arg) : toml :=
  let project_name :=
    if init_truthy project_name then init_toml project_name
    else TStr "LASIFProject" in
  TTable
    [("lasif_project",
      TTable
        [("project_name", project_name);
         ("description", TStr "");
         ("mesh_file", TStr "");
         ("download_settings",
          TTable
            [("seconds_before_event", TFloat 300%float);
             ("seconds_after_event", TFloat 3600%float);
             ("interstation_distance_in_meters", TFloat 1000%float);
             ("channel_priorities",
              TList [TStr "BH[Z,N,E]"; TStr "LH[Z,N,E]"; TStr "HH[Z,N,E]";
                     TStr "EH[Z,N,E]"; TStr "MH[Z,N,E]"]);
             ("location_priorities",
              TList [TStr ""; TStr "00"; TStr "10"; TStr "20"; TStr "01";
                     TStr "02"])])])].

(** [Project.__init_new_project], lines 219 to 244. *)
Definition __init_new_project (project_name : init_arg) : PM unit :=
  let config := new_config project_name in
  let! config_file := paths_getitem "config_file" in
  do_write config_file (toml_dumps config).

(** [Project._read_config_file], lines 125 to 133. *)
Definition _read_config_file : PM unit :=
  let! config_file := paths_getitem "config_file" in
  let! text := do_read config_file in
  let! document := plift (toml_loads text) in
  let! config := plift (toml_getitem document "lasif_project") in
  (fun st => (Return tt, set_config config st));;
  let! mesh_file := plift (toml_getitem config "mesh_file") in
  let! domain := plift (ExodusDomain mesh_file) in
  fun st => (Return tt, set_domain domain st).

(** The text of the warning of lines 117 to 121. The string is not
    formatted: the braces are part of it. *)
Definition template_warning : string :=
  "Function template '{filename.name}' did not exist. " +:+
  "It does now. Did you update a later LASIF version? " +:+
  "Please make sure you are aware of the changes.".

(** The loop of [Project.__copy_fct_templates], lines 113 to 123, over the
    names that [glob] yields in [directory]. *)
Fixpoint copy_templates (directory : string) (init_project : init_arg)
    (names : list string) : PM unit :=
  match names with
  | [] => pret tt
  | name :: rest =>
    let filename := Py.join directory name in
    let! functions := paths_getitem "functions" in
    let new_filename := Py.join functions name in
    let! present := do_exists new_filename in
    if present then copy_templates directory init_project rest
    else
      (if init_truthy init_project then pret tt
       else do_warn template_warning);;
      do_copy filename new_filename;;
      copy_templates directory init_project rest
  end.

(** [Project.__copy_fct_templates], lines 102 to 123. *)
Definition __copy_fct_templates (init_project : init_arg) : PM unit :=
  fun st =>
    copy_templates function_templates init_project
      (glob_py (files st) function_templates) st.

(** The table of line 257. *)
Definition fct_type_map : list (string * string) :=
  [("window_picking_function", "window_picking_function.py");
   ("preprocessing_function", "preprocessing_function.py");
   ("process_synthetics", "process_synthetics.py");
   ("source_time_function", "source_time_function.py")].

(** [Project.get_project_function], lines 246 to 288. *)
Definition get_project_function (fct_type : string)
    : PM (attribute Fn) :=
  fun st =>
    match project_function_cache st with
    | None => (Throw (Exn AttributeError), st)
    | Some cache =>
      match cache !! fct_type with
      | Some fct => (Return fct, st)
      | None =>
        (if negb (Py.contains fct_type fct_type) then
           throw (Exn LASIFNotFoundError)
         else
           let! functions := paths_getitem "functions" in
           let! name :=
             plift (match assoc fct_type_map fct_type with
                    | Some name => Return name
                    | None => Throw (Exn KeyError)
                    end) in
           let filename := Py.join functions name in
           let! present := do_exists filename in
           if negb present then throw (Exn LASIFNotFoundError)
           else
             let! fct_template := do_load_source filename in
             match fct_template !! fct_type with
             | None => throw (Exn LASIFNotFoundError)
             | Some fct =>
               match fct with
               | NotCallable => throw LASIFError
               | Callable _ =>
                 fun st =>
                   (Return fct,
                    set_project_function_cache
                      (<[fct_type := fct]> cache) st)
               end
             end) st
      end
    end.

(** The time part of the name of an output folder, line 298. *)
Definition folder_time (now : string) : string :=
  Py.before_first "." (Py.replace ":" "-" now).

(** [Project.get_output_folder], lines 290 to 304. [now] is what
    [str(UTCDateTime())] gives at the call. *)
Definition get_output_folder (type tag : string) (now : string)
    : PM string :=
  let d := folder_time now in
  let! output := paths_getitem "output" in
  let output_dir :=
    Py.join (Py.join output (lower type)) (d +:+ "__" +:+ tag) in
  let! present := do_exists output_dir in
  (if negb present then do_makedirs output_dir else pret tt);;
  pret output_dir.

(** [Project.get_log_file], lines 306 to 322. *)
Definition get_log_file (log_type description : string) (now : string)
    : PM string :=
  let! logs := paths_getitem "logs" in
  let log_dir := Py.join logs log_type in
  let filename := now +:+ "___" +:+ description in
  let filename := filename +:+ "." +:+ "log" in
  let! present := do_exists log_dir in
  (if negb present then do_makedirs log_dir else pret tt);;
  pret (Py.join log_dir filename).

(** A failure of the communicator is a failure of the project. *)
Definition of_result {A : Type} (r : result A) : outcome A :=
  match r with
  | Ok a => Return a
  | Raise e => Throw (Exn e)
  end.

(** [Project.__init__], lines 50 to 87. The communicator and the
    components are those of [Project.__init__] above. *)
Definition __init__ (project_root_path : string) (init_project : init_arg)
    : PM unit :=
  __setup_paths (absolute project_root_path);;
  (if init_truthy init_project then
     let! present := do_exists project_root_path in
     (if negb present then do_makedirs project_root_path else pret tt);;
     __init_new_project init_project
   else pret tt);;
  let! config_file := paths_getitem "config_file" in
  let! present := do_exists config_file in
  if negb present then throw LASIFError
  else
    let! registry :=
      plift (of_result (Project.__init__ events_answer waveforms_answer)) in
    (fun st => (Return tt, set_comm registry st));;
    __update_folder_structure;;
    _read_config_file;;
    (fun st => (Return tt, set_project_function_cache ∅ st));;
    __copy_fct_templates init_project.

(** An object before [__init__] has run, in a world with the file system
    [fs] and the interpreter [i]. *)
Definition blank (fs : F) (i : Interp) : state :=
  State [] None None None None fs [] [] i.

(** [Project(project_root_path, init_project)] *)
Definition new (project_root_path : string) (init_project : init_arg)
    (fs : F) (i : Interp) : outcome unit * state :=
  __init__ project_root_path init_project (blank fs i).

End ProjectObject.
End ProjectObject.

(** ** An example environment *)

Module Disk.
Import Examples.

(** A file system: a path leads to a folder ([None]) or to a file with its
    text. *)
Abbreviation disk := (gmap string (option string)).

Definition disk_exists (fs : disk) (path : string) : bool :=
  bool_decide (is_Some (fs !! path)).

Definition disk_makedirs (fs : disk) (path : string) : outcome unit * disk :=
  if disk_exists fs path then (Throw (External "FileExistsError"), fs)
  else (Return tt, <[path := None]> fs).

Definition disk_write (fs : disk) (path text : string)
    : outcome unit * disk :=
  match fs !! path with
  | Some None => (Throw (External "IsADirectoryError"), fs)
  | _ => (Return tt, <[path := Some text]> fs)
  end.

Definition disk_read (fs : disk) (path : string) : outcome string :=
  match fs !! path with
  | Some (Some text) => Return text
  | Some None => Throw (External "IsADirectoryError")
  | None => Throw (External "FileNotFoundError")
  end.

Definition template_names : list string :=
  ["preprocessing_function.py"; "process_synthetics.py";
   "source_time_function.py"; "window_picking_function.py"].

Definition disk_glob_py (fs : disk) (directory : string) : list string :=
  List.filter (λ name, disk_exists fs (Py.join directory name))
    template_names.

Definition disk_copy (fs : disk) (src dst : string) : outcome unit * disk :=
  match fs !! src with
  | Some (Some text) => (Return tt, <[dst := Some text]> fs)
  | _ => (Throw (External "FileNotFoundError"), fs)
  end.

(** An interpreter: the attributes of the module "_lasif_fct_template",
    and the messages of the warnings shown so far. *)
Record python := Python {
  template_module : gmap string (attribute string);
  shown : list string
}.

(** [os.path.dirname] *)
Fixpoint dirname (path : string) : string :=
  match path with
  | EmptyString => EmptyString
  | String c rest =>
    if Py.contains "/" rest then String c (dirname rest) else EmptyString
  end.

(** The text of a file of functions is the name of the one function it
    defines; a function is known by its name. A load adds the function to
    the module, where those of the earlier loads stay, and makes the
    folder of the byte code next to the file. *)
Definition disk_load_source (fs : disk) (i : python) (filename : string)
    : outcome (gmap string (attribute string)) * disk * python :=
  match disk_read fs filename with
  | Return text =>
    let module := <[text := Callable text]> (template_module i) in
    (Return module,
     <[Py.join (dirname filename) "__pycache__" := None]> fs,
     Python module (shown i))
  | Throw f => (Throw f, fs, i)
  end.

(** The default filter: a message is shown once. *)
Definition disk_warn (i : python) (message : string)
    : outcome unit * python :=
  if bool_decide (message ∈ shown i) then (Return tt, i)
  else (Return tt, Python (template_module i) (shown i ++ [message])).

Definition disk_absolute (path : string) : string :=
  if Py.startswith_sep path then path else Py.join "/home/user" path.

(** [lower] for the letters A to Z. *)
Definition ascii_lower (c : Ascii.ascii) : Ascii.ascii :=
  let n := nat_of_ascii c in
  if (65 <=? n)%nat && (n <=? 90)%nat then ascii_of_nat (n + 32) else c.

Fixpoint disk_lower (s : string) : string :=
  match s with
  | EmptyString => EmptyString
  | String c rest => String (ascii_lower c) (disk_lower rest)
  end.

(** A configuration file holds the name of the project, and nothing
    else. *)
Definition disk_toml_dumps (t : toml) : string :=
  match toml_getitem t "lasif_project" with
  | Return lasif_project =>
    match toml_getitem lasif_project "project_name" with
    | Return (TStr name) => name
    | _ => ""
    end
  | Throw _ => ""
  end.

Definition disk_toml_loads (text : string) : outcome toml :=
  Return (ProjectObject.new_config (InitName text)).

(** A domain is known by its mesh file. *)
Definition disk_ExodusDomain (mesh_file : toml) : outcome string :=
  match mesh_file with
  | TStr name => Return name
  | _ => Throw (External "TypeError")
  end.

#[export] Instance disk_environment
    : Environment disk python string string := {
  path_exists := disk_exists;
  makedirs := disk_makedirs;
  write := disk_write;
  read := disk_read;
  glob_py := disk_glob_py;
  copy := disk_copy;
  load_source := disk_load_source;
  warn := disk_warn;
  absolute := disk_absolute;
  lower := disk_lower;
  toml_dumps := disk_toml_dumps;
  toml_loads := disk_toml_loads;
  ExodusDomain := disk_ExodusDomain;
  function_templates := "/lasif/function_templates";
  events_answer := events_get ["E1"];
  waveforms_answer := fun _ => E1_listing
}.

(** The project "demo" in the folder /p, with one of its functions in
    place, and two templates next to the package. *)
Definition demo_disk : disk :=
  {[ "/p" := None;
     "/p/lasif_config.toml" := Some "demo";
     "/p/FUNCTIONS" := None;
     "/p/FUNCTIONS/preprocessing_function.py" := Some "preprocessing_function";
     "/lasif/function_templates/preprocessing_function.py" :=
       Some "preprocessing_function";
     "/lasif/function_templates/process_synthetics.py" :=
       Some "process_synthetics" ]}.

(** An interpreter that has loaded no project function and shown no
    warning. *)
Definition fresh : python := Python ∅ [].

(** The object of the project, with its paths and an empty cache. *)
Definition demo
    : @ProjectObject.state (gmap string row) disk python string string :=
  ProjectObject.set_project_function_cache ∅
    (ProjectObject.__setup_paths "/p" (ProjectObject.blank demo_disk fresh)).2.

(** A time as the clock gives it. *)
Definition demo_time : string := "2014-02-03T10:20:30.123456Z".

End Disk.

(** ** Entries with a station file *)

(** [has_station_file station_coordinates waveform]: the lookup under [try]
    succeeds for the entry. *)
Definition has_station_file (station_coordinates : gmap string dict)
    (waveform : dict) : bool :=
  match stat_coords_of station_coordinates waveform with
  | Ok _ => true
  | Raise _ => false
  end.

(** ** Properties of the loop *)

Tactic Notation "unfold_body" :=
  unfold loop_body, store_if_latitude, call_get_coordinates, bind, lift, ret,
    raise, result_bind, Communicator.get, attr_get_coordinates, getitem.
Tactic Notation "unfold_body" "in" hyp(H) :=
  unfold loop_body, store_if_latitude, call_get_coordinates, bind, lift, ret,
    raise, result_bind, Communicator.get, attr_get_coordinates, getitem in H.

Ltac split_matches H :=
  repeat match type of H with
  | context [match ?x with _ => _ end] =>
      let E := fresh "E" in destruct x eqn:E; simpl in H
  end.

Section Loop.
Variable float_str : float → string.
Context {S : Type}.
Variable comm : gmap string (component S).
Variables station_coordinates inventory_coordinates : gmap string dict.

Local Abbreviation body :=
  (loop_body float_str comm station_coordinates inventory_coordinates).
Local Abbreviation loop :=
  (for_waveforms float_str comm station_coordinates inventory_coordinates).
Local Abbreviation step :=
  (iteration float_str comm station_coordinates inventory_coordinates).

Lemma is_not_None_false (v : pyval) : is_not_None v = false → v = PyNone.
Proof. destruct v; simpl; congruence. Qed.

Lemma is_not_None_true (v : pyval) : is_not_None v = true ↔ v ≠ PyNone.
Proof. destruct v; simpl; split; congruence. Qed.

Lemma stat_coords_of_Ok (waveform stat_coords : dict) :
  stat_coords_of station_coordinates waveform = Ok stat_coords →
  ∃ channel_id,
    waveform !! "channel_id" = Some (PyStr channel_id) ∧
    station_coordinates !! channel_id = Some stat_coords.
Proof.
  unfold stat_coords_of, result_bind, getitem_val, getitem. intros H.
  destruct (waveform !! "channel_id") as [[| |channel_id]|]; try discriminate.
  exists channel_id. split; [done|].
  destruct (station_coordinates !! channel_id); by simplify_eq.
Qed.

Lemma station_id_of_Ok (waveform : dict) station_id :
  station_id_of float_str waveform = Ok station_id →
  is_Some (waveform !! "network") ∧ is_Some (waveform !! "station").
Proof.
  unfold station_id_of, result_bind, getitem. intros H.
  destruct (waveform !! "network"); [|discriminate].
  destruct (waveform !! "station"); [|discriminate]. eauto.
Qed.

(** The relation describes exactly the iterations that end normally. *)
Lemma body_iteration stations waveform w stations' w' :
  body stations waveform w = (Ok stations', w') →
  step stations waveform w stations' w'.
Proof.
  intros H. unfold_body in H.
  destruct (station_id_of float_str waveform) as [station_id|] eqn:Hid;
    simpl in H; [|discriminate].
  destruct (stations !! station_id) as [record|] eqn:Hseen.
  { simplify_eq. eapply iteration_seen; eauto. }
  destruct (stat_coords_of station_coordinates waveform)
    as [stat_coords|e] eqn:Hsc.
  2: { destruct e; simplify_eq. eapply iteration_no_station_file; eauto. }
  destruct (stat_coords !! "latitude") as [lat1|] eqn:Hlat1;
    simpl in H; [|discriminate].
  destruct (is_not_None lat1) eqn:Hnn1.
  { simplify_eq. eapply iteration_station_file; eauto. }
  apply is_not_None_false in Hnn1 as ->.
  destruct (waveform !! "latitude") as [lat2|] eqn:Hlat2;
    simpl in H; [|discriminate].
  destruct (is_not_None lat2) eqn:Hnn2.
  { simplify_eq. eapply iteration_waveform; eauto. }
  apply is_not_None_false in Hnn2 as ->.
  destruct (inventory_coordinates !! station_id) as [coords|] eqn:Hinv.
  { destruct (coords !! "latitude") as [lat3|] eqn:Hlat3;
      simpl in H; [|discriminate].
    assert (stations' = (if truthy lat3 then <[station_id := coords]> stations
                         else stations) ∧ w' = w) as [-> ->]
      by (destruct (truthy lat3); simplify_eq; done).
    eapply iteration_snapshot; eauto. }
  destruct (comm !! "inventory_db") as [c|] eqn:Hdb; simpl in H; [|discriminate].
  destruct c as [| | |gac gc|]; simpl in H; try discriminate.
  destruct (gc (inventory w) station_id) as [coords s] eqn:Hq; simpl in H.
  destruct (coords !! "latitude") as [lat4|] eqn:Hlat4;
    simpl in H; [|discriminate].
  assert (stations' = (if truthy lat4 then <[station_id := coords]> stations
                       else stations)
          ∧ w' = World s (trace w ++ [InventoryGetCoordinates station_id]))
    as [-> ->] by (destruct (truthy lat4); simplify_eq; done).
  eapply iteration_query; eauto.
Qed.

Lemma iteration_body stations waveform w stations' w' :
  step stations waveform w stations' w' →
  body stations waveform w = (Ok stations', w').
Proof.
  intros H. unfold_body.
  destruct H as [sid r Hid Hs | sid Hid Hs Hsc | sid sc lat Hid Hs Hsc Hl Hn
    | sid sc lat Hid Hs Hsc Hl Hwl Hn | sid sc coords lat Hid Hs Hsc Hl Hwl Hi Hcl
    | sid sc gac gc coords s lat Hid Hs Hsc Hl Hwl Hi Hdb Hq Hcl];
    rewrite Hid; simpl; rewrite Hs; try rewrite Hsc; try done.
  - rewrite Hl. simpl. by rewrite Hn.
  - rewrite Hl. simpl. rewrite Hwl. simpl. by rewrite Hn.
  - rewrite Hl. simpl. rewrite Hwl. simpl. rewrite Hi, Hcl. simpl.
    by destruct (truthy lat).
  - rewrite Hl. simpl. rewrite Hwl. simpl. rewrite Hi, Hdb. simpl.
    rewrite Hq, Hcl. simpl. by destruct (truthy lat).
Qed.

(** The loop over a concatenation runs the first part, then the second
    from where the first ended. *)
Lemma loop_app pre post stations w :
  loop (pre ++ post) stations w =
  match loop pre stations w with
  | (Ok stations', w') => loop post stations' w'
  | (Raise e, w') => (Raise e, w')
  end.
Proof.
  revert stations w. induction pre as [|waveform pre IH]; intros stations w.
  - reflexivity.
  - simpl. unfold bind.
    destruct (body stations waveform w) as [[stations'|e] w1]; [apply IH|done].
Qed.

(** An iteration, whether it ends normally or raises, adds to the log at
    most one live query, and only for the station of its entry, when that
    station is neither in the result nor in the snapshot. *)
Lemma body_trace stations waveform w r w' :
  body stations waveform w = (r, w') →
  trace w' = trace w ∨
  ∃ station_id,
    station_id_of float_str waveform = Ok station_id ∧
    stations !! station_id = None ∧
    inventory_coordinates !! station_id = None ∧
    trace w' = trace w ++ [InventoryGetCoordinates station_id].
Proof.
  intros H. unfold_body in H.
  destruct (station_id_of float_str waveform) as [station_id|] eqn:Hid;
    simpl in H; [|left; congruence].
  destruct (stations !! station_id) eqn:Hseen; [left; congruence|].
  destruct (inventory_coordinates !! station_id) eqn:Hinv.
  - left. split_matches H; congruence.
  - destruct (comm !! "inventory_db") as [[| | |gac gc|]|] eqn:Hdb;
      simpl in H; try (left; split_matches H; congruence).
    destruct (gc (inventory w) station_id) as [coords s] eqn:Hq.
    split_matches H; try (left; congruence);
      right; exists station_id; rewrite ?Hq in *; simplify_eq; done.
Qed.

Lemma loop_trace waveform_metadata stations w r w' :
  loop waveform_metadata stations w = (r, w') →
  ∃ queries,
    trace w' = trace w ++ queries ∧
    Forall (λ c, ∃ station_id,
              c = InventoryGetCoordinates station_id ∧
              inventory_coordinates !! station_id = None) queries.
Proof.
  revert stations w.
  induction waveform_metadata as [|waveform rest IH]; intros stations w H.
  - simpl in H. unfold ret in H. simplify_eq. exists []. by rewrite app_nil_r.
  - simpl in H. unfold bind in H.
    destruct (body stations waveform w) as [r1 w1] eqn:Hb.
    apply body_trace in Hb.
    assert (∃ q1, trace w1 = trace w ++ q1 ∧
              Forall (λ c, ∃ station_id,
                        c = InventoryGetCoordinates station_id ∧
                        inventory_coordinates !! station_id = None) q1)
      as (q1 & Hq1 & Hall1).
    { destruct Hb as [Hb|(sid & _ & _ & Hsnap & Hb)].
      - exists []. by rewrite app_nil_r.
      - exists [InventoryGetCoordinates sid]. split; [done|].
        constructor; [eauto|constructor]. }
    destruct r1 as [stations1|e].
    + apply IH in H as (q2 & Hq2 & Hall2).
      exists (q1 ++ q2). split.
      * by rewrite Hq2, Hq1, app_assoc.
      * by apply Forall_app.
    + simplify_eq. eauto.
Qed.

(** An entry of the result is not touched by a later iteration. *)
Lemma iteration_preserves stations waveform w stations' w' station_id record :
  step stations waveform w stations' w' →
  stations !! station_id = Some record →
  stations' !! station_id = Some record.
Proof.
  intros H Hrec.
  destruct H as [| | sid ? ? _ Hs | sid ? ? _ Hs | sid ? ? lat _ Hs
                 | sid ? ? ? ? ? lat _ Hs]; try done;
    try destruct (truthy lat); try done;
    (rewrite lookup_insert_ne; [done | congruence]).
Qed.

Lemma loop_preserves waveform_metadata stations w stations' w' station_id record :
  loop waveform_metadata stations w = (Ok stations', w') →
  stations !! station_id = Some record →
  stations' !! station_id = Some record.
Proof.
  revert stations w.
  induction waveform_metadata as [|waveform rest IH]; intros stations w H Hrec.
  - simpl in H. unfold ret in H. by simplify_eq.
  - simpl in H. unfold bind in H.
    destruct (body stations waveform w) as [[stations1|e] w1] eqn:Hb;
      [|discriminate].
    apply body_iteration in Hb.
    eapply IH; [exact H|]. eapply iteration_preserves; eauto.
Qed.

(** A record added by the iteration on the head of the listing is in the
    result of the loop. *)
Lemma loop_head_kept stations waveform rest w stations1 w1 stations' w'
    station_id record :
  step stations waveform w stations1 w1 →
  stations1 !! station_id = Some record →
  loop (waveform :: rest) stations w = (Ok stations', w') →
  stations' !! station_id = Some record.
Proof.
  intros Hstep Hrec Hloop. simpl in Hloop. unfold bind in Hloop.
  rewrite (iteration_body _ _ _ _ _ Hstep) in Hloop.
  eapply loop_preserves; eauto.
Qed.

Lemma count_cons {A : Type} (f : A → bool) x l :
  count f (x :: l) = (if f x then 1 else 0) + count f l.
Proof. unfold count. simpl. by destruct (f x). Qed.

Lemma count_app {A : Type} (f : A → bool) l1 l2 :
  count f (l1 ++ l2) = count f l1 + count f l2.
Proof. unfold count. by rewrite List.filter_app, length_app. Qed.

(** Once a station is in the result, the loop makes no live query for it. *)
Lemma loop_settled waveform_metadata stations w r w' station_id record :
  stations !! station_id = Some record →
  loop waveform_metadata stations w = (r, w') →
  ∃ queries,
    trace w' = trace w ++ queries ∧
    count (is_live_query station_id) queries = 0 ∧
    count is_snapshot_call queries = 0.
Proof.
  revert stations w.
  induction waveform_metadata as [|waveform rest IH]; intros stations w Hrec H.
  - simpl in H. unfold ret in H. simplify_eq. exists [].
    by rewrite app_nil_r.
  - simpl in H. unfold bind in H.
    destruct (body stations waveform w) as [r1 w1] eqn:Hb.
    assert (∃ q1, trace w1 = trace w ++ q1 ∧
              count (is_live_query station_id) q1 = 0 ∧
              count is_snapshot_call q1 = 0) as (q1 & Hq1 & Hc1 & Hs1).
    { destruct (body_trace _ _ _ _ _ Hb) as [Heq|(sid & _ & Hnone & _ & Heq)].
      - exists []. by rewrite app_nil_r.
      - exists [InventoryGetCoordinates sid]. split; [done|].
        rewrite !count_cons. simpl.
        rewrite bool_decide_eq_false_2 by congruence. done. }
    destruct r1 as [stations1|e].
    + apply body_iteration in Hb.
      pose proof (iteration_preserves _ _ _ _ _ _ _ Hb Hrec) as Hrec1.
      destruct (IH _ _ Hrec1 H) as (q2 & Hq2 & Hc2 & Hs2).
      exists (q1 ++ q2). rewrite !count_app, Hc1, Hc2, Hs1, Hs2, Hq2, Hq1.
      by rewrite app_assoc.
    + simplify_eq. eauto.
Qed.

(** While a station is neither in the result nor in the snapshot, and the
    live query for it answers a null latitude, the loop makes one live
    query for every entry of the station that falls through to the
    inventory, up to the entry that resolves the station. *)
Lemma loop_requeries get_all_coordinates get_coordinates (reachable : S → Prop)
    waveform_metadata stations w stations' w' station_id :
  comm !! "inventory_db"
    = Some (InventoryDBComponent get_all_coordinates get_coordinates) →
  inventory_coordinates !! station_id = None →
  (∀ s sid, reachable s → reachable (get_coordinates s sid).2) →
  (∀ s, reachable s →
        (get_coordinates s station_id).1 !! "latitude" = Some PyNone) →
  reachable (inventory w) →
  stations !! station_id = None →
  loop waveform_metadata stations w = (Ok stations', w') →
  ∃ queries,
    trace w' = trace w ++ queries ∧
    count (is_live_query station_id) queries =
      count (λ waveform,
               entry_of float_str station_id waveform &&
               falls_through station_coordinates waveform)
        (until_resolved float_str station_coordinates station_id
           waveform_metadata) ∧
    count is_snapshot_call queries = 0.
Proof.
  intros Hdb Hsnap Hstable Hnull. revert stations w.
  induction waveform_metadata as [|waveform rest IH];
    intros stations w Hreach Hnew H.
  - simpl in H. unfold ret in H. simplify_eq. exists [].
    by rewrite app_nil_r.
  - simpl in H. unfold bind in H.
    destruct (body stations waveform w) as [[stations1|e] w1] eqn:Hb;
      [|discriminate].
    apply body_iteration in Hb.
    (* the entry contributes [n] queries and leaves the rest of the listing
       to be counted, or resolves the station *)
    assert (∀ q1 n,
      reachable (inventory w1) →
      trace w1 = trace w ++ q1 →
      count (is_live_query station_id) q1 = n →
      count is_snapshot_call q1 = 0 →
      stations1 !! station_id = None →
      (entry_of float_str station_id waveform
         && resolves_early station_coordinates waveform = false) →
      (if entry_of float_str station_id waveform
            && falls_through station_coordinates waveform
       then 1 else 0) = n →
      ∃ queries,
        trace w' = trace w ++ queries ∧
        count (is_live_query station_id) queries =
          count (λ waveform,
                   entry_of float_str station_id waveform &&
                   falls_through station_coordinates waveform)
            (until_resolved float_str station_coordinates station_id
               (waveform :: rest)) ∧
        count is_snapshot_call queries = 0) as Hgo.
    { intros q1 n Hreach1 Hq1 Hc1 Hs1 Hnew1 Hres Hn.
      destruct (IH _ _ Hreach1 Hnew1 H) as (q2 & Hq2 & Hc2 & Hs2).
      exists (q1 ++ q2). simpl. rewrite Hres, count_cons, !count_app.
      rewrite Hq2, Hq1, Hc1, Hc2, Hs1, Hs2, Hn.
      by rewrite app_assoc. }
    assert (∀ record,
      w1 = w →
      stations1 !! station_id = Some record →
      (entry_of float_str station_id waveform
         && resolves_early station_coordinates waveform = true) →
      ∃ queries,
        trace w' = trace w ++ queries ∧
        count (is_live_query station_id) queries =
          count (λ waveform,
                   entry_of float_str station_id waveform &&
                   falls_through station_coordinates waveform)
            (until_resolved float_str station_coordinates station_id
               (waveform :: rest)) ∧
        count is_snapshot_call queries = 0) as Hstop.
    { intros record -> Hrec Hres.
      destruct (loop_settled _ _ _ _ _ _ _ Hrec H) as (q & Hq & Hc & Hs).
      exists q. simpl. rewrite Hres. done. }
    unfold entry_of, resolves_early, falls_through in Hgo, Hstop.
    destruct Hb as [sid r Hid Hs | sid Hid Hs Hsc | sid sc lat Hid Hs Hsc Hl Hn
      | sid sc lat Hid Hs Hsc Hl Hwl Hn
      | sid sc coords lat Hid Hs Hsc Hl Hwl Hi Hcl
      | sid sc gac gc coords s lat Hid Hs Hsc Hl Hwl Hi Hdb' Hq Hcl];
      rewrite Hid in Hgo, Hstop.
    + apply (Hgo [] 0); rewrite ?app_nil_r; try done;
        rewrite bool_decide_eq_false_2 by congruence; done.
    + rewrite Hsc in Hgo. apply (Hgo [] 0); rewrite ?app_nil_r; try done;
        by rewrite andb_false_r.
    + rewrite Hsc, Hl, Hn in Hgo, Hstop. simpl in Hgo, Hstop.
      destruct (decide (sid = station_id)) as [->|Hne].
      * apply (Hstop sc); [done|apply lookup_insert_eq|].
        by rewrite bool_decide_eq_true_2.
      * rewrite bool_decide_eq_false_2 in Hgo by done.
        apply (Hgo [] 0); rewrite ?app_nil_r; try done.
        by rewrite lookup_insert_ne.
    + rewrite Hsc, Hl, Hwl, Hn in Hgo, Hstop. simpl in Hgo, Hstop.
      destruct (decide (sid = station_id)) as [->|Hne].
      * apply (Hstop waveform); [done|apply lookup_insert_eq|].
        by rewrite bool_decide_eq_true_2.
      * rewrite bool_decide_eq_false_2 in Hgo by done.
        apply (Hgo [] 0); rewrite ?app_nil_r; try done.
        by rewrite lookup_insert_ne.
    + assert (sid ≠ station_id) as Hne by congruence.
      rewrite bool_decide_eq_false_2 in Hgo by done.
      apply (Hgo [] 0); rewrite ?app_nil_r; try done.
      destruct (truthy lat); [by rewrite lookup_insert_ne|done].
    + rewrite Hsc, Hl, Hwl in Hgo. simpl in Hgo.
      destruct (decide (sid = station_id)) as [->|Hne].
      * rewrite Hdb in Hdb'. simplify_eq.
        pose proof (Hnull (inventory w) Hreach) as Hlat.
        pose proof (Hstable (inventory w) station_id Hreach) as Hreach1.
        rewrite Hq in Hlat, Hreach1. simpl in Hlat, Hreach1.
        simplify_eq. simpl.
        rewrite bool_decide_eq_true_2 in Hgo by done.
        apply (Hgo [InventoryGetCoordinates station_id] 1); try done.
        rewrite count_cons. simpl. by rewrite bool_decide_eq_true_2.
      * rewrite Hdb in Hdb'. simplify_eq.
        pose proof (Hstable (inventory w) sid Hreach) as Hreach1.
        rewrite Hq in Hreach1. simpl in Hreach1.
        rewrite bool_decide_eq_false_2 in Hgo by done.
        apply (Hgo [InventoryGetCoordinates sid] 0); try done.
        -- rewrite count_cons. simpl. by rewrite bool_decide_eq_false_2.
        -- destruct (truthy lat); [by rewrite lookup_insert_ne|done].
Qed.

Lemma stat_coords_of_Raise (waveform : dict) e :
  stat_coords_of station_coordinates waveform = Raise e → e = KeyError.
Proof.
  unfold stat_coords_of, result_bind, getitem_val, getitem. intros H.
  destruct (waveform !! "channel_id") as [[| |channel_id]|];
    try congruence.
  destruct (station_coordinates !! channel_id); congruence.
Qed.

(** With the keys present, no iteration raises and the loop returns. *)
Lemma body_returns waveform stations w :
  keys_present comm station_coordinates inventory_coordinates [waveform] →
  ∃ stations' w', body stations waveform w = (Ok stations', w').
Proof.
  intros (Hwm & Hfiles & Hsnap & gac & gc & Hdb & Hquery).
  destruct (Hwm waveform) as ([net Hnet] & [sta Hsta] & [wlat Hwlat]);
    [apply list_elem_of_here|].
  unfold_body. unfold station_id_of, result_bind, getitem.
  rewrite Hnet, Hsta. simpl.
  destruct (stations !! _) eqn:Hseen; [eauto|].
  destruct (stat_coords_of station_coordinates waveform)
    as [stat_coords|e] eqn:Hsc.
  2: { apply stat_coords_of_Raise in Hsc as ->. eauto. }
  apply stat_coords_of_Ok in Hsc as (channel_id & _ & Hsc).
  destruct (Hfiles _ _ Hsc) as [lat Hlat]. rewrite Hlat. simpl.
  destruct (is_not_None lat); [eauto|].
  rewrite Hwlat. simpl.
  destruct (is_not_None wlat); [eauto|].
  destruct (inventory_coordinates !! _) as [coords|] eqn:Hinv.
  - destruct (Hsnap _ _ Hinv) as [clat Hclat]. rewrite Hclat. simpl.
    destruct (truthy clat); eauto.
  - rewrite Hdb. simpl.
    match goal with
    | |- context [gc ?s ?sid] =>
        destruct (Hquery s sid) as [clat Hclat];
        destruct (gc s sid) as [coords s1]
    end.
    simpl in *. rewrite Hclat. simpl.
    destruct (truthy clat); eauto.
Qed.

Lemma loop_returns waveform_metadata stations w :
  keys_present comm station_coordinates inventory_coordinates
    waveform_metadata →
  ∃ stations' w', loop waveform_metadata stations w = (Ok stations', w').
Proof.
  revert stations w.
  induction waveform_metadata as [|waveform rest IH]; intros stations w Hkeys.
  - simpl. unfold ret. eauto.
  - destruct Hkeys as (Hwm & Hfiles & Hsnap & Hdb).
    destruct (body_returns waveform stations w) as (stations1 & w1 & Hb).
    { refine (conj _ (conj Hfiles (conj Hsnap Hdb))).
      intros x Hx. apply list_elem_of_singleton in Hx as ->.
      apply Hwm, list_elem_of_here. }
    simpl. unfold bind. rewrite Hb. apply IH.
    refine (conj _ (conj Hfiles (conj Hsnap Hdb))).
    intros x Hx. apply Hwm. by apply list_elem_of_further.
Qed.

Local Abbreviation from :=
  (source float_str comm station_coordinates inventory_coordinates).

Lemma source_mono l1 l2 station_id record :
  l1 ⊆ l2 → from l1 station_id record → from l2 station_id record.
Proof.
  intros Hsub [wv lat Hin ? ? ? ? | lat Hin ? ? ? | lat ? ? ? | gac gc s lat ? ? ? ? ?].
  - eapply source_station_file; eauto.
  - eapply source_waveform; eauto.
  - eapply source_snapshot; eauto.
  - eapply source_query; eauto.
Qed.

(** What an iteration adds comes from one of the four places. *)
Lemma iteration_source stations waveform w stations' w' station_id record :
  step stations waveform w stations' w' →
  stations' !! station_id = Some record →
  stations !! station_id = Some record ∨ from [waveform] station_id record.
Proof.
  intros H Hrec.
  destruct H as [| | sid sc lat Hid Hs Hsc Hl Hn
    | sid sc lat Hid Hs Hsc Hl Hwl Hn | sid sc coords lat Hid Hs Hsc Hl Hwl Hi Hcl
    | sid sc gac gc coords s lat Hid Hs Hsc Hl Hwl Hi Hdb Hq Hcl];
    try (by left).
  - destruct (decide (sid = station_id)) as [->|Hne];
      [|rewrite lookup_insert_ne in Hrec by done; by left].
    rewrite lookup_insert_eq in Hrec. simplify_eq. right.
    eapply source_station_file; eauto. apply list_elem_of_singleton; done.
  - destruct (decide (sid = station_id)) as [->|Hne];
      [|rewrite lookup_insert_ne in Hrec by done; by left].
    rewrite lookup_insert_eq in Hrec. simplify_eq. right.
    eapply source_waveform; eauto. apply list_elem_of_singleton; done.
  - destruct (truthy lat) eqn:Ht; [|by left].
    destruct (decide (sid = station_id)) as [->|Hne];
      [|rewrite lookup_insert_ne in Hrec by done; by left].
    rewrite lookup_insert_eq in Hrec. simplify_eq. right.
    eapply source_snapshot; eauto.
  - destruct (truthy lat) eqn:Ht; [|by left].
    destruct (decide (sid = station_id)) as [->|Hne];
      [|rewrite lookup_insert_ne in Hrec by done; by left].
    rewrite lookup_insert_eq in Hrec. simplify_eq. right.
    eapply source_query; eauto. by rewrite Hq.
Qed.

Lemma loop_source waveform_metadata stations w stations' w' station_id record :
  loop waveform_metadata stations w = (Ok stations', w') →
  stations' !! station_id = Some record →
  stations !! station_id = Some record ∨
  from waveform_metadata station_id record.
Proof.
  revert stations w.
  induction waveform_metadata as [|waveform rest IH]; intros stations w H Hrec.
  - simpl in H. unfold ret in H. simplify_eq. by left.
  - simpl in H. unfold bind in H.
    destruct (body stations waveform w) as [[stations1|e] w1] eqn:Hb;
      [|discriminate].
    apply body_iteration in Hb.
    destruct (IH _ _ H Hrec) as [Hin|Hsrc].
    + destruct (iteration_source _ _ _ _ _ _ _ Hb Hin) as [?|Hsrc]; [by left|].
      right. eapply source_mono; [|exact Hsrc].
      by apply list_subseteq_skip, list_subseteq_nil.
    + right. eapply source_mono; [|exact Hsrc]. by apply list_subseteq_cons.
Qed.

End Loop.

(** ** Properties of a call *)

Section Call.
Variable float_str : float → string.
Context {S : Type}.

Local Abbreviation query := (get_all_stations_for_event float_str).
Local Abbreviation loop := (for_waveforms float_str).

(** With the providers in place and the event known, a call makes the four
    collecting calls and runs the loop from the empty dictionary. *)
Lemma call_loop (comm : gmap string (component S)) event_name w origin_time
    waveform_metadata station_coordinates inventory_coordinates
    get_coordinates :
  providers_answer comm event_name w origin_time waveform_metadata
    station_coordinates inventory_coordinates get_coordinates →
  query comm event_name w =
  loop comm station_coordinates inventory_coordinates waveform_metadata ∅
    (loop_start w event_name origin_time).
Proof.
  intros (ev & wf & st & gac & event & Hev & Hwf & Hst & Hdb & Hevent & Htime
          & <- & <- & <-).
  unfold get_all_stations_for_event, bind, lift, Communicator.get.
  rewrite Hev. simpl. rewrite Hevent. rewrite Hwf. simpl.
  rewrite Hst. simpl. unfold getitem. rewrite Htime. simpl.
  rewrite Hdb. simpl. unfold loop_start, collected, log. simpl.
  by rewrite <- !app_assoc.
Qed.

(** With the providers in place, the event known and the keys present, a
    call returns a dictionary. *)
Lemma call_returns (comm : gmap string (component S)) event_name w origin_time
    waveform_metadata station_coordinates inventory_coordinates
    get_coordinates :
  providers_answer comm event_name w origin_time waveform_metadata
    station_coordinates inventory_coordinates get_coordinates →
  keys_present comm station_coordinates inventory_coordinates
    waveform_metadata →
  ∃ stations w',
    get_all_stations_for_event float_str comm event_name w = (Ok stations, w').
Proof.
  intros Hp Hkeys. rewrite (call_loop _ _ _ _ _ _ _ _ Hp).
  by apply loop_returns.
Qed.

(** A latitude of zero does not pass the test [if coords["latitude"]:] of
    lines 86 and 92. An entry that reaches the snapshot, for a station that
    the snapshot holds with the latitude 0.0, leaves the result
    unchanged. *)
Lemma zero_latitude_not_stored (comm : gmap string (component S))
    station_coordinates inventory_coordinates stations waveform w station_id
    stat_coords coords :
  station_id_of float_str waveform = Ok station_id →
  stations !! station_id = None →
  stat_coords_of station_coordinates waveform = Ok stat_coords →
  stat_coords !! "latitude" = Some PyNone →
  waveform !! "latitude" = Some PyNone →
  inventory_coordinates !! station_id = Some coords →
  coords !! "latitude" = Some (PyFloat 0%float) →
  loop_body float_str comm station_coordinates inventory_coordinates
    stations waveform w = (Ok stations, w).
Proof.
  intros Hid Hnew Hsc Hnull Hwnull Hsnap Hzero.
  apply iteration_body.
  exact (iteration_snapshot float_str comm station_coordinates
           inventory_coordinates stations waveform w station_id stat_coords
           coords (PyFloat 0%float) Hid Hnew Hsc Hnull Hwnull Hsnap Hzero).
Qed.

(** The same holds for the answer of a live query: the query is made, its
    answer with the latitude 0.0 is not stored. *)
Lemma zero_latitude_query_not_stored (comm : gmap string (component S))
    station_coordinates inventory_coordinates stations waveform w station_id
    stat_coords get_all_coordinates get_coordinates coords s :
  station_id_of float_str waveform = Ok station_id →
  stations !! station_id = None →
  stat_coords_of station_coordinates waveform = Ok stat_coords →
  stat_coords !! "latitude" = Some PyNone →
  waveform !! "latitude" = Some PyNone →
  inventory_coordinates !! station_id = None →
  comm !! "inventory_db"
    = Some (InventoryDBComponent get_all_coordinates get_coordinates) →
  get_coordinates (inventory w) station_id = (coords, s) →
  coords !! "latitude" = Some (PyFloat 0%float) →
  loop_body float_str comm station_coordinates inventory_coordinates
    stations waveform w =
  (Ok stations, World s (trace w ++ [InventoryGetCoordinates station_id])).
Proof.
  intros Hid Hnew Hsc Hnull Hwnull Hsnap Hdb Hq Hzero.
  apply iteration_body.
  exact (iteration_query float_str comm station_coordinates
           inventory_coordinates stations waveform w station_id stat_coords
           get_all_coordinates get_coordinates coords s (PyFloat 0%float)
           Hid Hnew Hsc Hnull Hwnull Hsnap Hdb Hq Hzero).
Qed.

(** The branch of line 74 tests [is not None]: a station file with the
    latitude 0.0 resolves the station. *)
Lemma zero_latitude_station_file_stored (comm : gmap string (component S))
    station_coordinates inventory_coordinates stations waveform w station_id
    stat_coords :
  station_id_of float_str waveform = Ok station_id →
  stations !! station_id = None →
  stat_coords_of station_coordinates waveform = Ok stat_coords →
  stat_coords !! "latitude" = Some (PyFloat 0%float) →
  loop_body float_str comm station_coordinates inventory_coordinates
    stations waveform w = (Ok (<[station_id := stat_coords]> stations), w).
Proof.
  intros Hid Hnew Hsc Hzero.
  apply iteration_body. eapply iteration_station_file; eauto.
Qed.

(** C1, amended. Precedence holds entry by entry. When the loop reaches an
    entry whose station is not yet in the result and whose channel has a
    station file, the record returned for the station is that of the
    highest tier that resolves at this entry: the station file of the
    channel if its latitude is not null (whatever the waveform metadata and
    the inventory hold, so tier 1 wins over tier 3); else the entry itself
    if its latitude is not null; else the record of the snapshot if the
    station is in it with a latitude that is neither null nor zero; else
    the answer of the live query if its latitude is neither null nor
    zero. The station files of later entries of the station are not
    consulted. *)
Theorem C1_precedence_at_entry (comm : gmap string (component S)) event_name
    w origin_time pre waveform post station_coordinates inventory_coordinates
    get_coordinates stations w1 station_id stat_coords stations' w' :
  providers_answer comm event_name w origin_time (pre ++ waveform :: post)
    station_coordinates inventory_coordinates get_coordinates →
  for_waveforms float_str comm station_coordinates inventory_coordinates
    pre ∅ (loop_start w event_name origin_time) = (Ok stations, w1) →
  station_id_of float_str waveform = Ok station_id →
  stations !! station_id = None →
  stat_coords_of station_coordinates waveform = Ok stat_coords →
  get_all_stations_for_event float_str comm event_name w = (Ok stations', w') →
  (∀ latitude,
     stat_coords !! "latitude" = Some latitude →
     latitude ≠ PyNone →
     stations' !! station_id = Some stat_coords) ∧
  (stat_coords !! "latitude" = Some PyNone →
   ∀ latitude,
     waveform !! "latitude" = Some latitude →
     latitude ≠ PyNone →
     stations' !! station_id = Some waveform) ∧
  (stat_coords !! "latitude" = Some PyNone →
   waveform !! "latitude" = Some PyNone →
   ∀ coords latitude,
     inventory_coordinates !! station_id = Some coords →
     coords !! "latitude" = Some latitude →
     truthy latitude = true →
     stations' !! station_id = Some coords) ∧
  (stat_coords !! "latitude" = Some PyNone →
   waveform !! "latitude" = Some PyNone →
   inventory_coordinates !! station_id = None →
   ∀ latitude,
     (get_coordinates (inventory w1) station_id).1 !! "latitude"
       = Some latitude →
     truthy latitude = true →
     stations' !! station_id
       = Some (get_coordinates (inventory w1) station_id).1).
Proof.
  intros Hp Hpre Hid Hnew Hsc Hcall.
  rewrite (call_loop _ _ _ _ _ _ _ _ Hp), loop_app, Hpre in Hcall.
  repeat split.
  - intros lat Hlat Hnn. apply is_not_None_true in Hnn.
    eapply loop_head_kept; [|apply lookup_insert_eq|exact Hcall].
    eapply iteration_station_file; eauto.
  - intros Hnull lat Hlat Hnn. apply is_not_None_true in Hnn.
    eapply loop_head_kept; [|apply lookup_insert_eq|exact Hcall].
    eapply iteration_waveform; eauto.
  - intros Hnull Hwnull coords lat Hsnap Hlat Ht.
    eapply loop_head_kept; [|apply lookup_insert_eq|exact Hcall].
    pose proof (iteration_snapshot float_str comm station_coordinates
                  inventory_coordinates stations waveform w1 station_id
                  stat_coords coords lat Hid Hnew Hsc Hnull Hwnull Hsnap Hlat)
      as Hstep.
    rewrite Ht in Hstep. exact Hstep.
  - intros Hnull Hwnull Hsnap lat Hlat Ht.
    destruct Hp as (? & ? & ? & gac & ? & _ & _ & _ & Hdb & _).
    destruct (get_coordinates (inventory w1) station_id) as [coords s] eqn:Hq.
    simpl in *.
    eapply loop_head_kept; [|apply lookup_insert_eq|exact Hcall].
    pose proof (iteration_query float_str comm station_coordinates
                  inventory_coordinates stations waveform w1 station_id
                  stat_coords gac get_coordinates coords s lat Hid Hnew Hsc
                  Hnull Hwnull Hsnap Hdb Hq Hlat) as Hstep.
    rewrite Ht in Hstep. exact Hstep.
Qed.

(** C2, the state of the code. [Project.__init__] registers the events and
    the waveforms components before the query component, and never a
    component named "stations" or "inventory_db": on the communicator it
    builds, both lookups fail, and a call of [get_all_stations_for_event]
    for a known event raises the not-found error at the lookup of
    "stations", after the calls to the events and the waveforms
    components. *)
Theorem C2_providers_not_registered (events_get : string → result dict)
    (waveforms_get_metadata_raw : string → list dict) :
  ∃ comm : gmap string (component S),
    Project.__init__ events_get waveforms_get_metadata_raw = Ok comm ∧
    Communicator.get comm "waveforms"
      = Ok (WaveformsComponent waveforms_get_metadata_raw) ∧
    Communicator.get comm "query" = Ok (OtherComponent "QueryComponent") ∧
    Communicator.get comm "stations" = Raise LASIFNotFoundError ∧
    Communicator.get comm "inventory_db" = Raise LASIFNotFoundError ∧
    ∀ event_name event w,
      events_get event_name = Ok event →
      get_all_stations_for_event float_str comm event_name w =
      (Raise LASIFNotFoundError,
       World (inventory w)
         (trace w ++ [EventsGet event_name;
                      WaveformsGetMetadataRaw event_name])).
Proof.
  eexists. split; [reflexivity|].
  split; [reflexivity|]. split; [reflexivity|]. split; [reflexivity|].
  split; [reflexivity|].
  intros event_name event w Hevent.
  unfold get_all_stations_for_event, bind, lift.
  change (Communicator.get _ "events") with
    (Ok (A := component S) (EventsComponent events_get)).
  simpl. rewrite Hevent.
  change (Communicator.get _ "waveforms") with
    (Ok (A := component S) (WaveformsComponent waveforms_get_metadata_raw)).
  simpl.
  change (Communicator.get _ "stations") with
    (Raise (A := component S) LASIFNotFoundError).
  simpl. unfold log. cbn [inventory trace]. by rewrite <- app_assoc.
Qed.

(** C5. For a station that the snapshot of the inventory holds with a null
    latitude, the call issues no live query for that station (whether it
    returns or raises), and the station is in the result only with the
    record of a higher tier: the station file of the channel of one of its
    entries, or such an entry itself, with a non-null latitude. *)
Theorem C5_negative_cache (comm : gmap string (component S)) event_name w
    origin_time waveform_metadata station_coordinates inventory_coordinates
    get_coordinates station_id coords r w' :
  providers_answer comm event_name w origin_time waveform_metadata
    station_coordinates inventory_coordinates get_coordinates →
  inventory_coordinates !! station_id = Some coords →
  coords !! "latitude" = Some PyNone →
  get_all_stations_for_event float_str comm event_name w = (r, w') →
  (∃ queries,
     trace w' = trace w ++ collected event_name origin_time ++ queries ∧
     InventoryGetCoordinates station_id ∉ queries) ∧
  (∀ stations record,
     r = Ok stations →
     stations !! station_id = Some record →
     ∃ waveform latitude,
       waveform ∈ waveform_metadata ∧
       station_id_of float_str waveform = Ok station_id ∧
       (stat_coords_of station_coordinates waveform = Ok record ∨
        record = waveform) ∧
       record !! "latitude" = Some latitude ∧
       latitude ≠ PyNone).
Proof.
  intros Hp Hsnap Hnull Hcall.
  rewrite (call_loop _ _ _ _ _ _ _ _ Hp) in Hcall. split.
  - apply loop_trace in Hcall as (queries & Htrace & Hall).
    exists queries. split.
    + rewrite Htrace. unfold loop_start. cbn [trace]. by rewrite <- app_assoc.
    + intros Hin. rewrite Forall_forall in Hall.
      destruct (Hall _ Hin) as (sid & Heq & Hnone). simplify_eq.
  - intros stations record -> Hrec.
    destruct (loop_source _ _ _ _ _ _ _ _ _ _ _ Hcall Hrec) as [Hempty|Hsrc].
    { by rewrite lookup_empty in Hempty. }
    destruct Hsrc as [wv lat Hin Hid Hsc Hlat Hnn | lat Hin Hid Hlat Hnn
                      | lat Hin Hlat Ht | gac gc s lat _ Hnone _ _ _].
    + exists wv, lat. rewrite is_not_None_true in Hnn. eauto 10.
    + exists record, lat. rewrite is_not_None_true in Hnn. eauto 10.
    + simplify_eq.
    + simplify_eq.
Qed.

(** C6. The returned mapping has at most one entry per station identity,
    and a record, once added for a station, is never overwritten by a
    later entry of the listing: if the loop holds [record] for
    [station_id] after the entries [pre], the call returns [record] for
    [station_id], and no station identity occurs twice among the items of
    the returned dictionary. *)
Theorem C6_first_seen_wins (comm : gmap string (component S)) event_name w
    origin_time pre post station_coordinates inventory_coordinates
    get_coordinates stations w1 station_id record stations' w' :
  providers_answer comm event_name w origin_time (pre ++ post)
    station_coordinates inventory_coordinates get_coordinates →
  for_waveforms float_str comm station_coordinates inventory_coordinates
    pre ∅ (loop_start w event_name origin_time) = (Ok stations, w1) →
  stations !! station_id = Some record →
  get_all_stations_for_event float_str comm event_name w = (Ok stations', w') →
  stations' !! station_id = Some record ∧
  NoDup (map_to_list stations').*1.
Proof.
  intros Hp Hpre Hrec Hcall.
  rewrite (call_loop _ _ _ _ _ _ _ _ Hp), loop_app, Hpre in Hcall.
  split.
  - eapply loop_preserves; eauto.
  - apply NoDup_fst_map_to_list.
Qed.

(** C7. For an event name that the events component does not know,
    [get_all_stations_for_event] fails with the not-found error of the
    lookup of the event, and the lookup is the only call made to a
    provider: the log grows by that call alone and the inventory is
    untouched. *)
Theorem C7_unknown_event (comm : gmap string (component S)) events_get
    event_name w :
  comm !! "events" = Some (EventsComponent events_get) →
  events_get event_name = Raise LASIFNotFoundError →
  get_all_stations_for_event float_str comm event_name w =
  (Raise LASIFNotFoundError,
   World (inventory w) (trace w ++ [EventsGet event_name])).
Proof.
  intros Hev Hget.
  unfold get_all_stations_for_event, bind, lift, Communicator.get.
  rewrite Hev. simpl. by rewrite Hget.
Qed.


(** C9. For every event whose listing of waveform metadata is empty,
    [get_all_stations_for_event] returns an empty mapping: the call makes
    the four collecting calls and returns the empty dictionary. *)
Theorem C9_empty_listing (comm : gmap string (component S)) event_name w
    origin_time station_coordinates inventory_coordinates get_coordinates :
  providers_answer comm event_name w origin_time []
    station_coordinates inventory_coordinates get_coordinates →
  get_all_stations_for_event float_str comm event_name w =
  (Ok ∅, loop_start w event_name origin_time).
Proof.
  intros Hp. rewrite (call_loop _ _ _ _ _ _ _ _ Hp). simpl. reflexivity.
Qed.

(** C10. During one call the snapshot of the inventory is taken once and
    never again. For a station absent from the snapshot whose live query
    answers a null latitude in every state of the inventory that the call
    can reach, every entry of the station that reaches the
    inventory (its channel has a station file, and the latitudes of the
    station file and of the entry are null) triggers one more live query,
    up to the entry that resolves the station from a higher tier: the
    number of live queries for the station is the number of these
    entries, which can be more than one. *)
Theorem C10_snapshot_not_refreshed (comm : gmap string (component S))
    event_name w origin_time waveform_metadata station_coordinates
    inventory_coordinates get_coordinates (reachable : S → Prop) station_id
    stations w' :
  providers_answer comm event_name w origin_time waveform_metadata
    station_coordinates inventory_coordinates get_coordinates →
  inventory_coordinates !! station_id = None →
  reachable (inventory w) →
  (∀ s sid, reachable s → reachable (get_coordinates s sid).2) →
  (∀ s, reachable s →
        (get_coordinates s station_id).1 !! "latitude" = Some PyNone) →
  get_all_stations_for_event float_str comm event_name w = (Ok stations, w') →
  ∃ queries,
    trace w' = trace w ++ collected event_name origin_time ++ queries ∧
    count is_snapshot_call (collected event_name origin_time ++ queries) = 1 ∧
    count (is_live_query station_id) queries =
      count (λ waveform,
               entry_of float_str station_id waveform &&
               falls_through station_coordinates waveform)
        (until_resolved float_str station_coordinates station_id
           waveform_metadata).
Proof.
  intros Hp Hsnap Hreach Hstable Hnull Hcall.
  rewrite (call_loop _ _ _ _ _ _ _ _ Hp) in Hcall.
  destruct Hp as (? & ? & ? & gac & ? & _ & _ & _ & Hdb & _).
  destruct (loop_requeries float_str comm station_coordinates
              inventory_coordinates gac get_coordinates reachable
              waveform_metadata ∅ (loop_start w event_name origin_time)
              _ _ station_id Hdb Hsnap Hstable Hnull
              Hreach (lookup_empty _) Hcall)
    as (queries & Htrace & Hcount & Hsnaps).
  exists queries. split; [|split].
  - rewrite Htrace. unfold loop_start. cbn [trace]. by rewrite <- app_assoc.
  - rewrite count_app, Hsnaps. reflexivity.
  - exact Hcount.
Qed.

End Call.

(** ** The examples, run *)

Import Examples.

Ltac providers :=
  eexists _, _, _, _, _; repeat split; reflexivity.

(** A dictionary built from a row has the four coordinate fields. *)
Lemma dom_row_dict (r : row) : dom (row_dict r) = coordinate_fields.
Proof.
  unfold row_dict, coordinates, coordinate_fields.
  rewrite !dom_insert_L, dom_singleton_L. set_solver.
Qed.

(** C1, on event E1 with an empty cache: the first entry goes through to
    the live query, which finds nothing; the second is resolved from its
    station file. *)
Lemma C1_precedence_at_entry_witness :
  ({[ "NET.STA" := E1_file ]} : gmap string dict) !! "NET.STA" = Some E1_file.
Proof.
  refine (proj1 (C1_precedence_at_entry float_str E1_project "E1" empty_world
           origin_time
           [waveform "NET" "STA" "NET.STA..BHE" PyNone PyNone]
           (waveform "NET" "STA" "NET.STA..BHZ" PyNone PyNone) []
           E1_station_files ∅ (get_coordinates ∅)
           ∅
           (World {[ "NET.STA" := no_row ]}
              (collected "E1" origin_time
                 ++ [InventoryGetCoordinates "NET.STA"]))
           "NET.STA" E1_file {[ "NET.STA" := E1_file ]}
           (World {[ "NET.STA" := no_row ]}
              (collected "E1" origin_time
                 ++ [InventoryGetCoordinates "NET.STA"]))
           _ _ _ _ _ _) (PyFloat 10%float) _ _).
  - providers.
  - vm_compute; reflexivity.
  - reflexivity.
  - reflexivity.
  - reflexivity.
  - vm_compute; reflexivity.
  - reflexivity.
  - discriminate.
Defined.

(** C1 as stated fails on event E1 with the station in the cache. The
    station is resolvable from the station file of its second channel
    (tier 1) and from the snapshot of the inventory (tier 3); the result
    holds the record of the snapshot, which is not that of the station
    file. *)
Lemma C1_counterexample :
  providers_answer E1_project "E1" E1_world origin_time E1_listing
    E1_station_files (get_all_coordinates E1_cache) (get_coordinates ∅) ∧
  (∃ waveform,
     waveform ∈ E1_listing ∧
     station_id_of float_str waveform = Ok "NET.STA" ∧
     stat_coords_of E1_station_files waveform = Ok E1_file) ∧
  E1_file !! "latitude" = Some (PyFloat 10%float) ∧
  get_all_coordinates E1_cache !! "NET.STA" = Some E1_cached ∧
  E1_cached !! "latitude" = Some (PyFloat 3%float) ∧
  get_all_stations_for_event float_str E1_project "E1" E1_world =
    (Ok {[ "NET.STA" := E1_cached ]}, loop_start E1_world "E1" origin_time) ∧
  E1_cached ≠ E1_file.
Proof.
  split; [providers|].
  split.
  { exists (waveform "NET" "STA" "NET.STA..BHZ" PyNone PyNone).
    split; [|split; reflexivity].
    apply list_elem_of_further, list_elem_of_here. }
  split; [reflexivity|]. split; [reflexivity|]. split; [reflexivity|].
  split; [vm_compute; reflexivity|].
  intros H. apply (f_equal (λ d : dict, d !! "elevation_in_m")) in H.
  vm_compute in H. discriminate.
Qed.

(** C2, on the project that [Project.__init__] builds around the events
    and the waveforms of E1. *)
Lemma C2_providers_not_registered_witness :
  ∃ comm : gmap string (component (gmap string row)),
    Project.__init__ (events_get ["E1"]) (λ _, E1_listing) = Ok comm ∧
    Communicator.get comm "stations" = Raise LASIFNotFoundError ∧
    Communicator.get comm "inventory_db" = Raise LASIFNotFoundError ∧
    get_all_stations_for_event float_str comm "E1" empty_world =
    (Raise LASIFNotFoundError,
     World ∅ [EventsGet "E1"; WaveformsGetMetadataRaw "E1"]).
Proof.
  destruct (C2_providers_not_registered float_str (S := gmap string row)
              (events_get ["E1"]) (λ _, E1_listing))
    as (comm & Hinit & _ & _ & Hst & Hdb & Hcall).
  exists comm. split; [exact Hinit|]. split; [exact Hst|].
  split; [exact Hdb|].
  apply (Hcall "E1" {[ "event_name" := PyStr "E1";
                       "origin_time" := origin_time ]} empty_world).
  reflexivity.
Defined.


(** C4, on event E4. NET.EQU reaches the snapshot, which holds it with the
    latitude 0.0; NET.ZER reaches the live query, which answers the
    latitude 0.0. Neither station is in the result. *)
Theorem C4_zero_latitude_dropped :
  get_all_coordinates E4_cache !! "NET.EQU" = Some (row_dict E4_equator) ∧
  get_all_coordinates E4_cache !! "NET.ZER" = None ∧
  (get_coordinates E4_remote E4_cache "NET.ZER").1 = row_dict E4_equator ∧
  row_dict E4_equator !! "latitude" = Some (PyFloat 0%float) ∧
  get_all_stations_for_event float_str E4_project "E4" E4_world =
    (Ok ∅,
     World (<["NET.ZER" := E4_equator]> E4_cache)
       (collected "E4" origin_time ++ [InventoryGetCoordinates "NET.ZER"])).
Proof.
  split; [reflexivity|]. split; [reflexivity|]. split; [reflexivity|].
  split; [reflexivity|].
  erewrite call_loop.
  2: { instantiate (1 := get_coordinates E4_remote).
       instantiate (1 := get_all_coordinates E4_cache).
       instantiate (1 := E4_station_files).
       instantiate (1 := E4_listing).
       instantiate (1 := origin_time).
       providers. }
  unfold E4_listing. cbn [for_waveforms]. unfold bind.
  erewrite zero_latitude_not_stored; reflexivity.
Qed.

(** C5, on event E5 with the negative entry in the cache. *)
Lemma C5_negative_cache_witness :
  (∃ queries,
     trace (loop_start E5_world "E5" origin_time) =
       trace E5_world ++ collected "E5" origin_time ++ queries ∧
     InventoryGetCoordinates "NET.UNK" ∉ queries) ∧
  (∀ (stations : gmap string dict) record,
     Ok ∅ = Ok stations →
     stations !! "NET.UNK" = Some record →
     ∃ waveform latitude,
       waveform ∈ E5_listing ∧
       station_id_of float_str waveform = Ok "NET.UNK" ∧
       (stat_coords_of E5_station_files waveform = Ok record ∨
        record = waveform) ∧
       record !! "latitude" = Some latitude ∧
       latitude ≠ PyNone).
Proof.
  apply (C5_negative_cache float_str E5_project "E5" E5_world origin_time
           E5_listing E5_station_files (get_all_coordinates E5_cache)
           (get_coordinates ∅)
           "NET.UNK" no_coordinates (Ok ∅)
           (loop_start E5_world "E5" origin_time)).
  - providers.
  - reflexivity.
  - reflexivity.
  - vm_compute; reflexivity.
Defined.

(** C6, on event E1 with the station cached: the first entry takes the
    record of the cache, and the second, whose channel has a station file
    with coordinates, does not replace it. *)
Lemma C6_first_seen_wins_witness :
  ({[ "NET.STA" := E1_cached ]} : gmap string dict) !! "NET.STA"
    = Some E1_cached ∧
  NoDup (map_to_list ({[ "NET.STA" := E1_cached ]} : gmap string dict)).*1.
Proof.
  apply (C6_first_seen_wins float_str E1_project "E1" E1_world origin_time
           [waveform "NET" "STA" "NET.STA..BHE" PyNone PyNone]
           [waveform "NET" "STA" "NET.STA..BHZ" PyNone PyNone]
           E1_station_files (get_all_coordinates E1_cache)
           (get_coordinates ∅)
           {[ "NET.STA" := E1_cached ]} (loop_start E1_world "E1" origin_time)
           "NET.STA" E1_cached {[ "NET.STA" := E1_cached ]}
           (loop_start E1_world "E1" origin_time)).
  - providers.
  - vm_compute; reflexivity.
  - reflexivity.
  - vm_compute; reflexivity.
Defined.

(** C7, on the project of E6 and the event of the docstring. *)
Lemma C7_unknown_event_witness :
  get_all_stations_for_event float_str E6_project "RandomEvent" empty_world =
  (Raise LASIFNotFoundError, World ∅ [EventsGet "RandomEvent"]).
Proof.
  apply (C7_unknown_event float_str E6_project (events_get ["E6"])
           "RandomEvent" empty_world); reflexivity.
Defined.



(** C9, on event E6. *)
Lemma C9_empty_listing_witness :
  get_all_stations_for_event float_str E6_project "E6" empty_world =
  (Ok ∅, loop_start empty_world "E6" origin_time).
Proof.
  apply (C9_empty_listing float_str E6_project "E6" empty_world origin_time
           ∅ ∅ (get_coordinates ∅)).
  providers.
Defined.

(** C10, on event E5 with an empty cache: the live query for NET.UNK is
    made for each of the two entries, although the first already cached
    the answer. *)
Lemma C10_snapshot_not_refreshed_witness :
  ∃ queries,
    collected "E5" origin_time
      ++ [InventoryGetCoordinates "NET.UNK"; InventoryGetCoordinates "NET.UNK"]
    = [] ++ collected "E5" origin_time ++ queries ∧
    count is_snapshot_call (collected "E5" origin_time ++ queries) = 1 ∧
    count (is_live_query "NET.UNK") queries = 2.
Proof.
  apply (C10_snapshot_not_refreshed float_str E5_project "E5" empty_world
           origin_time E5_listing E5_station_files ∅ (get_coordinates ∅)
           E5_unresolved "NET.UNK" ∅
           (World {[ "NET.UNK" := no_row ]}
              (collected "E5" origin_time
                 ++ [InventoryGetCoordinates "NET.UNK";
                     InventoryGetCoordinates "NET.UNK"]))).
  - providers.
  - reflexivity.
  - left. reflexivity.
  - intros s sid Hs. unfold get_coordinates, E5_unresolved in *.
    destruct (s !! sid) as [r|] eqn:Hsid; simpl; [done|].
    destruct (decide (sid = "NET.UNK")) as [->|Hne].
    + right. rewrite lookup_insert_eq, lookup_empty. reflexivity.
    + by rewrite lookup_insert_ne.
  - intros s [Hs|Hs]; unfold get_coordinates; rewrite Hs; reflexivity.
  - vm_compute; reflexivity.
Defined.

(** ** Further properties of the query *)

Section MoreLoop.
Variable float_str : float → string.
Context {S : Type}.
Variable comm : gmap string (component S).
Variables station_coordinates inventory_coordinates : gmap string dict.

Local Abbreviation body :=
  (loop_body float_str comm station_coordinates inventory_coordinates).
Local Abbreviation loop :=
  (for_waveforms float_str comm station_coordinates inventory_coordinates).
Local Abbreviation step :=
  (iteration float_str comm station_coordinates inventory_coordinates).

(** An iteration leaves the world as it is unless it makes a live query. *)
Lemma body_world stations waveform w r w' :
  body stations waveform w = (r, w') →
  w' = w ∨
  ∃ station_id,
    station_id_of float_str waveform = Ok station_id ∧
    inventory_coordinates !! station_id = None ∧
    trace w' = trace w ++ [InventoryGetCoordinates station_id].
Proof.
  intros H. unfold_body in H.
  destruct (station_id_of float_str waveform) as [station_id|] eqn:Hid;
    simpl in H; [|left; congruence].
  destruct (stations !! station_id) eqn:Hseen; [left; congruence|].
  destruct (inventory_coordinates !! station_id) eqn:Hinv.
  - left. split_matches H; congruence.
  - destruct (comm !! "inventory_db") as [[| | |gac gc|]|] eqn:Hdb;
      simpl in H; try (left; split_matches H; congruence).
    destruct (gc (inventory w) station_id) as [coords s] eqn:Hq.
    split_matches H; try (left; congruence);
      right; exists station_id; rewrite ?Hq in *; simplify_eq; done.
Qed.

Lemma loop_untouched waveform_metadata stations w r w' :
  (∀ waveform station_id,
     waveform ∈ waveform_metadata →
     station_id_of float_str waveform = Ok station_id →
     is_Some (inventory_coordinates !! station_id)) →
  loop waveform_metadata stations w = (r, w') →
  w' = w.
Proof.
  revert stations w.
  induction waveform_metadata as [|waveform rest IH]; intros stations w Hall H.
  - simpl in H. unfold ret in H. by simplify_eq.
  - simpl in H. unfold bind in H.
    destruct (body stations waveform w) as [r1 w1] eqn:Hb.
    assert (w1 = w) as ->.
    { destruct (body_world _ _ _ _ _ Hb) as [?|(sid & Hid & Hnone & _)];
        [done|].
      destruct (Hall waveform sid (list_elem_of_here _ _) Hid) as [? Hsome].
      congruence. }
    destruct r1 as [stations1|e]; [|by simplify_eq].
    eapply IH; [|exact H].
    intros wv sid Hin. apply Hall. by apply list_elem_of_further.
Qed.

(** The only calls the loop makes are live queries: at most one for each
    entry, each for the station of an entry that the snapshot does not
    hold. *)
Lemma loop_queries waveform_metadata stations w r w' :
  loop waveform_metadata stations w = (r, w') →
  ∃ queries,
    trace w' = trace w ++ queries ∧
    length queries ≤ length waveform_metadata ∧
    Forall (λ c, ∃ waveform station_id,
              waveform ∈ waveform_metadata ∧
              station_id_of float_str waveform = Ok station_id ∧
              inventory_coordinates !! station_id = None ∧
              c = InventoryGetCoordinates station_id) queries.
Proof.
  revert stations w.
  induction waveform_metadata as [|waveform rest IH]; intros stations w H.
  - simpl in H. unfold ret in H. simplify_eq. exists [].
    rewrite app_nil_r. split; [done|]. split; [simpl; lia|constructor].
  - simpl in H. unfold bind in H.
    destruct (body stations waveform w) as [r1 w1] eqn:Hb.
    assert (∃ q1, trace w1 = trace w ++ q1 ∧ length q1 ≤ 1 ∧
              Forall (λ c, ∃ wv station_id,
                        wv ∈ waveform :: rest ∧
                        station_id_of float_str wv = Ok station_id ∧
                        inventory_coordinates !! station_id = None ∧
                        c = InventoryGetCoordinates station_id) q1)
      as (q1 & Hq1 & Hlen1 & Hall1).
    { destruct (body_world _ _ _ _ _ Hb) as [->|(sid & Hid & Hnone & Heq)].
      - exists []. rewrite app_nil_r.
        split; [done|]. split; [simpl; lia|constructor].
      - exists [InventoryGetCoordinates sid].
        split; [done|]. split; [simpl; lia|].
        constructor; [|constructor].
        exists waveform, sid. split; [apply list_elem_of_here|done]. }
    destruct r1 as [stations1|e].
    + destruct (IH _ _ H) as (q2 & Hq2 & Hlen2 & Hall2).
      exists (q1 ++ q2). rewrite Hq2, Hq1, app_assoc, length_app.
      split; [done|]. split; [simpl; lia|].
      apply Forall_app. split; [done|].
      eapply Forall_impl; [exact Hall2|].
      intros c (wv & sid & Hin & Hrest). exists wv, sid.
      split; [by apply list_elem_of_further|done].
    + simplify_eq. exists q1. split; [done|]. split; [simpl; lia|done].
Qed.

(** A key of the result is the station of an entry with a station file. *)
Lemma iteration_key stations waveform w stations' w' station_id :
  step stations waveform w stations' w' →
  is_Some (stations' !! station_id) →
  is_Some (stations !! station_id) ∨
  (station_id_of float_str waveform = Ok station_id ∧
   has_station_file station_coordinates waveform = true).
Proof.
  intros H Hkey. unfold has_station_file.
  destruct H as [| | sid sc lat Hid Hs Hsc Hl Hn
    | sid sc lat Hid Hs Hsc Hl Hwl Hn | sid sc coords lat Hid Hs Hsc Hl Hwl Hi Hcl
    | sid sc gac gc coords s lat Hid Hs Hsc Hl Hwl Hi Hdb Hq Hcl];
    try (by left); try (destruct (truthy lat); [|by left]);
    (destruct (decide (sid = station_id)) as [->|Hne];
     [right; by rewrite Hsc
     |left; by rewrite lookup_insert_ne in Hkey]).
Qed.

Lemma loop_keys waveform_metadata stations w stations' w' station_id :
  loop waveform_metadata stations w = (Ok stations', w') →
  is_Some (stations' !! station_id) →
  is_Some (stations !! station_id) ∨
  ∃ waveform,
    waveform ∈ waveform_metadata ∧
    station_id_of float_str waveform = Ok station_id ∧
    has_station_file station_coordinates waveform = true.
Proof.
  revert stations w.
  induction waveform_metadata as [|waveform rest IH]; intros stations w H Hkey.
  - simpl in H. unfold ret in H. simplify_eq. by left.
  - simpl in H. unfold bind in H.
    destruct (body stations waveform w) as [[stations1|e] w1] eqn:Hb;
      [|discriminate].
    apply body_iteration in Hb.
    destruct (IH _ _ H Hkey) as [Hin|(wv & Hin & Hid & Hfile)].
    + destruct (iteration_key _ _ _ _ _ _ Hb Hin) as [?|[Hid Hfile]];
        [by left|].
      right. exists waveform. split; [apply list_elem_of_here|done].
    + right. exists wv. split; [by apply list_elem_of_further|done].
Qed.

(** An entry without a station file changes nothing. *)
Lemma body_no_station_file stations waveform w station_id :
  station_id_of float_str waveform = Ok station_id →
  has_station_file station_coordinates waveform = false →
  body stations waveform w = (Ok stations, w).
Proof.
  intros Hid Hfile. unfold has_station_file in Hfile.
  destruct (stat_coords_of station_coordinates waveform) as [|e] eqn:Hsc;
    [discriminate|].
  apply stat_coords_of_Raise in Hsc as Heq. subst e.
  apply iteration_body.
  destruct (stations !! station_id) as [record|] eqn:Hseen.
  - eapply iteration_seen; eauto.
  - eapply iteration_no_station_file; eauto.
Qed.

End MoreLoop.

Section Embedded.
Variable float_str : float → string.
Context {S : Type}.


End Embedded.

Section MoreCall.
Variable float_str : float → string.
Context {S : Type}.

(** X1. A station is in the result only if the channel of one of its
    entries in the listing has a station file, whatever the waveform
    metadata and the inventory hold for it. *)
Theorem X1_stations_have_station_file (comm : gmap string (component S))
    event_name w origin_time waveform_metadata station_coordinates
    inventory_coordinates get_coordinates stations w' station_id :
  providers_answer comm event_name w origin_time waveform_metadata
    station_coordinates inventory_coordinates get_coordinates →
  get_all_stations_for_event float_str comm event_name w = (Ok stations, w') →
  is_Some (stations !! station_id) →
  ∃ waveform,
    waveform ∈ waveform_metadata ∧
    station_id_of float_str waveform = Ok station_id ∧
    has_station_file station_coordinates waveform = true.
Proof.
  intros Hp Hcall Hkey.
  rewrite (call_loop _ _ _ _ _ _ _ _ _ Hp) in Hcall.
  destruct (loop_keys _ _ _ _ _ _ _ _ _ _ Hcall Hkey) as [[? Hempty]|?];
    [|done].
  by rewrite lookup_empty in Hempty.
Qed.

(** X2. Every record of the result has a latitude, and it is not null. *)
Theorem X2_records_have_latitude (comm : gmap string (component S))
    event_name w origin_time waveform_metadata station_coordinates
    inventory_coordinates get_coordinates stations w' station_id record :
  providers_answer comm event_name w origin_time waveform_metadata
    station_coordinates inventory_coordinates get_coordinates →
  get_all_stations_for_event float_str comm event_name w = (Ok stations, w') →
  stations !! station_id = Some record →
  ∃ latitude, record !! "latitude" = Some latitude ∧ latitude ≠ PyNone.
Proof.
  intros Hp Hcall Hrec.
  rewrite (call_loop _ _ _ _ _ _ _ _ _ Hp) in Hcall.
  destruct (loop_source _ _ _ _ _ _ _ _ _ _ _ Hcall Hrec) as [Hempty|Hsrc].
  { by rewrite lookup_empty in Hempty. }
  destruct Hsrc as [wv lat _ _ _ Hlat Hnn | lat _ _ Hlat Hnn
                    | lat _ Hlat Ht | gac gc s lat _ _ _ Hlat Ht];
    exists lat; (split; [done|]).
  - by apply is_not_None_true.
  - by apply is_not_None_true.
  - by destruct lat.
  - by destruct lat.
Qed.

(** X3. Entries whose channel has no station file, and entries without a
    channel id, have no effect: the loop over the listing without them
    ends with the same result in the same world. *)
Theorem X3_entries_without_station_file_ignored
    (comm : gmap string (component S))
    station_coordinates inventory_coordinates waveform_metadata stations w :
  (∀ waveform,
     waveform ∈ waveform_metadata →
     has_station_file station_coordinates waveform = false →
     ∃ station_id, station_id_of float_str waveform = Ok station_id) →
  for_waveforms float_str comm station_coordinates inventory_coordinates
    (List.filter (has_station_file station_coordinates) waveform_metadata)
    stations w =
  for_waveforms float_str comm station_coordinates inventory_coordinates
    waveform_metadata stations w.
Proof.
  revert stations w.
  induction waveform_metadata as [|waveform rest IH]; intros stations w Hids.
  - reflexivity.
  - assert (∀ stations1 w1,
      for_waveforms float_str comm station_coordinates inventory_coordinates
        (List.filter (has_station_file station_coordinates) rest)
        stations1 w1 =
      for_waveforms float_str comm station_coordinates inventory_coordinates
        rest stations1 w1) as IH'.
    { intros stations1 w1. apply IH.
      intros wv Hin. apply Hids. by apply list_elem_of_further. }
    simpl.
    destruct (has_station_file station_coordinates waveform) eqn:Hfile.
    + simpl. unfold bind.
      destruct (loop_body _ _ _ _ stations waveform w) as [[stations1|e] w1];
        [apply IH'|done].
    + destruct (Hids waveform (list_elem_of_here _ _) Hfile) as [sid Hid].
      unfold bind.
      rewrite (body_no_station_file _ _ _ _ _ _ _ _ Hid Hfile). apply IH'.
Qed.

(** X4. An entry without a network or a station makes the call raise
    [KeyError] when the loop reaches it: the stations resolved before are
    lost, and the live queries made before stay made. *)
Theorem X4_entry_without_station_raises (comm : gmap string (component S))
    event_name w origin_time pre waveform post station_coordinates
    inventory_coordinates get_coordinates stations w1 :
  providers_answer comm event_name w origin_time (pre ++ waveform :: post)
    station_coordinates inventory_coordinates get_coordinates →
  for_waveforms float_str comm station_coordinates inventory_coordinates
    pre ∅ (loop_start w event_name origin_time) = (Ok stations, w1) →
  waveform !! "network" = None ∨ waveform !! "station" = None →
  get_all_stations_for_event float_str comm event_name w =
  (Raise KeyError, w1).
Proof.
  intros Hp Hpre Hmissing.
  rewrite (call_loop _ _ _ _ _ _ _ _ _ Hp), loop_app, Hpre. simpl.
  unfold bind, loop_body, bind, lift, station_id_of, result_bind, getitem.
  destruct Hmissing as [Hnet|Hsta].
  - by rewrite Hnet.
  - rewrite Hsta. by destruct (waveform !! "network").
Qed.

(** X5. When the snapshot of the inventory holds every station of the
    listing, with or without coordinates, the call makes no live query
    and leaves the inventory as it is, whether it returns or raises. *)
Theorem X5_no_query_when_cached (comm : gmap string (component S))
    event_name w origin_time waveform_metadata station_coordinates
    inventory_coordinates get_coordinates r w' :
  providers_answer comm event_name w origin_time waveform_metadata
    station_coordinates inventory_coordinates get_coordinates →
  (∀ waveform station_id,
     waveform ∈ waveform_metadata →
     station_id_of float_str waveform = Ok station_id →
     is_Some (inventory_coordinates !! station_id)) →
  get_all_stations_for_event float_str comm event_name w = (r, w') →
  w' = loop_start w event_name origin_time.
Proof.
  intros Hp Hall Hcall.
  rewrite (call_loop _ _ _ _ _ _ _ _ _ Hp) in Hcall.
  eapply loop_untouched; eauto.
Qed.


End MoreCall.

Import MoreExamples.


(** X1, on event E1 with an empty cache. *)
Lemma X1_stations_have_station_file_witness :
  ∃ waveform,
    waveform ∈ E1_listing ∧
    station_id_of float_str waveform = Ok "NET.STA" ∧
    has_station_file E1_station_files waveform = true.
Proof.
  apply (X1_stations_have_station_file float_str E1_project "E1" empty_world
           origin_time E1_listing E1_station_files ∅ (get_coordinates ∅)
           {[ "NET.STA" := E1_file ]}
           (World {[ "NET.STA" := no_row ]}
              (collected "E1" origin_time
                 ++ [InventoryGetCoordinates "NET.STA"]))
           "NET.STA").
  - providers.
  - vm_compute; reflexivity.
  - eexists; reflexivity.
Defined.

(** X2, on event E1 with the station in the cache. *)
Lemma X2_records_have_latitude_witness :
  ∃ latitude, E1_cached !! "latitude" = Some latitude ∧ latitude ≠ PyNone.
Proof.
  apply (X2_records_have_latitude float_str E1_project "E1" E1_world
           origin_time E1_listing E1_station_files
           (get_all_coordinates E1_cache) (get_coordinates ∅)
           {[ "NET.STA" := E1_cached ]} (loop_start E1_world "E1" origin_time)
           "NET.STA" E1_cached).
  - providers.
  - vm_compute; reflexivity.
  - reflexivity.
Defined.

(** X3, on the listing of E2, whose entry has no station file. *)
Lemma X3_entries_without_station_file_ignored_witness :
  for_waveforms float_str E2_project ∅ ∅
    (List.filter (has_station_file ∅) [E2_waveform]) ∅ empty_world =
  for_waveforms float_str E2_project ∅ ∅ [E2_waveform] ∅ empty_world.
Proof.
  apply (X3_entries_without_station_file_ignored float_str E2_project ∅ ∅
           [E2_waveform] ∅ empty_world).
  intros waveform Hin _. apply list_elem_of_singleton in Hin as ->.
  exists "NET.STB". reflexivity.
Defined.

(** X4, on event E7. *)
Lemma X4_entry_without_station_raises_witness :
  get_all_stations_for_event float_str E7_project "E7" empty_world =
  (Raise KeyError, loop_start empty_world "E7" origin_time).
Proof.
  apply (X4_entry_without_station_raises float_str E7_project "E7"
           empty_world origin_time [] E7_waveform [] E3_station_files ∅
           (get_coordinates ∅) ∅).
  - providers.
  - reflexivity.
  - left. reflexivity.
Defined.

(** X5, on event E5 with the station cached without coordinates. *)
Lemma X5_no_query_when_cached_witness :
  loop_start E5_world "E5" origin_time = loop_start E5_world "E5" origin_time.
Proof.
  apply (X5_no_query_when_cached float_str E5_project "E5" E5_world
           origin_time E5_listing E5_station_files
           (get_all_coordinates E5_cache) (get_coordinates ∅)
           (Ok ∅) (loop_start E5_world "E5" origin_time)).
  - providers.
  - intros waveform station_id Hin Hid. unfold E5_listing in Hin.
    apply elem_of_cons in Hin as [->|Hin];
      [|apply list_elem_of_singleton in Hin as ->];
      vm_compute in Hid; simplify_eq; eexists; reflexivity.
  - vm_compute; reflexivity.
Defined.


(** ** Properties of Python strings and paths *)

Lemma prefix_refl (s : string) : String.prefix s s = true.
Proof.
  induction s as [|c s IH]; simpl; [done|].
  destruct (ascii_dec c c); [exact IH|done].
Qed.

Lemma contains_refl (s : string) : Py.contains s s = true.
Proof. destruct s; [done|]. cbn [Py.contains]. by rewrite prefix_refl. Qed.

Lemma prefix_app (a b : string) : String.prefix a (a +:+ b) = true.
Proof.
  induction a as [|c a IH]; simpl; [by destruct b|].
  destruct (ascii_dec c c); [exact IH|done].
Qed.

Lemma prefix_trans (a b c : string) :
  String.prefix a b = true → String.prefix b c = true →
  String.prefix a c = true.
Proof.
  revert b c. induction a as [|x a IH]; intros b c Hab Hbc; [by destruct c|].
  destruct b as [|y b]; [done|]. destruct c as [|z c]; [done|].
  simpl in *.
  destruct (ascii_dec x y) as [->|]; [|done].
  destruct (ascii_dec y z) as [->|]; [|done].
  eauto.
Qed.

Lemma append_assoc (a b c : string) : (a +:+ b) +:+ c = a +:+ b +:+ c.
Proof.
  induction a as [|x a IH]; [done|].
  change (String x ((a +:+ b) +:+ c) = String x (a +:+ b +:+ c)).
  by rewrite IH.
Qed.

(** Joining a relative name keeps the first path as a prefix. *)
Lemma prefix_join (a b : string) :
  Py.startswith_sep b = false → String.prefix a (Py.join a b) = true.
Proof.
  intros Hb. unfold Py.join. rewrite Hb.
  destruct (String.eqb a "" || Py.endswith_sep a); apply prefix_app.
Qed.

(** An absolute second path replaces the first. *)
Lemma join_absolute (a b : string) :
  Py.startswith_sep b = true → Py.join a b = b.
Proof. intros Hb. unfold Py.join. by rewrite Hb. Qed.

(** [c in s] for a character [c]. *)
Lemma contains_char_cons (c x : Ascii.ascii) (s : string) :
  Py.contains (String c "") (String x s) =
  Ascii.eqb x c || Py.contains (String c "") s.
Proof.
  simpl. destruct (ascii_dec c x) as [->|Hne].
  - rewrite Ascii.eqb_refl. by destruct s.
  - assert (Ascii.eqb x c = false) as ->; [|done].
    apply Ascii.eqb_neq. congruence.
Qed.

Lemma before_first_free (sep c : Ascii.ascii) (s : string) :
  Py.contains (String c "") s = false →
  Py.contains (String c "") (Py.before_first sep s) = false.
Proof.
  induction s as [|x s IH]; [done|].
  rewrite contains_char_cons. intros [Hx Hs]%orb_false_iff.
  cbn [Py.before_first]. destruct (Ascii.eqb x sep); [done|].
  rewrite contains_char_cons, Hx. by apply IH.
Qed.

Lemma before_first_sep_free (sep : Ascii.ascii) (s : string) :
  Py.contains (String sep "") (Py.before_first sep s) = false.
Proof.
  induction s as [|x s IH]; [done|].
  cbn [Py.before_first]. destruct (Ascii.eqb x sep) eqn:Hx; [done|].
  by rewrite contains_char_cons, Hx.
Qed.

Lemma replace_free (old new : Ascii.ascii) (s : string) :
  old ≠ new → Py.contains (String old "") (Py.replace old new s) = false.
Proof.
  intros Hne. induction s as [|x s IH]; [done|].
  cbn [Py.replace]. rewrite contains_char_cons, IH, orb_false_r.
  destruct (Ascii.eqb x old) eqn:Hx; [|done].
  apply Ascii.eqb_neq. congruence.
Qed.

(** The time part of the name of an output folder has no colon and no
    dot. *)
Lemma folder_time_clean (now : string) :
  Py.contains ":" (ProjectObject.folder_time now) = false ∧
  Py.contains "." (ProjectObject.folder_time now) = false.
Proof.
  unfold ProjectObject.folder_time. split.
  - apply before_first_free, replace_free. discriminate.
  - apply before_first_sep_free.
Qed.

Lemma folder_time_relative (now tag : string) :
  Py.startswith_sep now = false →
  Py.startswith_sep (ProjectObject.folder_time now +:+ "__" +:+ tag) = false.
Proof.
  unfold ProjectObject.folder_time. destruct now as [|x now]; [done|].
  cbn. intros Hx.
  destruct (Ascii.eqb x ":") eqn:Hc.
  - done.
  - destruct (Ascii.eqb x ".") eqn:Hd; [done|]. cbn. exact Hx.
Qed.

(** ** Properties of the project object *)

Section ProjectProperties.
Context {S F Interp Fn Domain : Type} `{!Environment F Interp Fn Domain}.

Import ProjectObject.

Local Abbreviation state := (@ProjectObject.state S F Interp Fn Domain).

Ltac unfold_pm :=
  unfold pbind, pret, throw, plift, paths_getitem, do_exists, do_makedirs,
    do_write, do_copy, do_read in *.

(** X7. The test [fct_type not in fct_type] of line 264 never holds. For a
    function type that is neither cached nor one of the four of the
    table, [get_project_function] raises [KeyError] at the lookup in the
    table, not [LASIFNotFoundError], and leaves the object as it is. *)
Theorem X7_unknown_function_type (st : state) cache fct_type functions :
  project_function_cache st = Some cache →
  cache !! fct_type = None →
  assoc (paths st) "functions" = Some functions →
  assoc fct_type_map fct_type = None →
  get_project_function fct_type st = (Throw (Exn KeyError), st).
Proof.
  intros Hcache Hmiss Hfunctions Hunknown.
  unfold get_project_function. rewrite Hcache, Hmiss, contains_refl.
  unfold_pm. cbn [negb]. by rewrite Hfunctions, Hunknown.
Qed.

(** The table gives, for each of its types, the file named like the
    type. *)
Lemma fct_type_map_name fct_type name :
  assoc fct_type_map fct_type = Some name → name = fct_type +:+ ".py".
Proof.
  intros Hname. unfold fct_type_map in Hname. cbn [assoc] in Hname.
  repeat match type of Hname with
  | (if String.eqb ?k fct_type then _ else _) = _ =>
      destruct (String.eqb_spec k fct_type) as [<-|_];
        [by simplify_eq|]
  end.
  discriminate.
Qed.

(** What a call of [get_project_function] that finds nothing in the cache
    and returns has done. *)
Lemma get_project_function_loaded (st st' : state) cache fct_type fct :
  project_function_cache st = Some cache →
  cache !! fct_type = None →
  get_project_function fct_type st = (Return fct, st') →
  ∃ functions module f fs i,
    let filename := Py.join functions (fct_type +:+ ".py") in
    assoc (paths st) "functions" = Some functions ∧
    path_exists (files st) filename = true ∧
    load_source (files st) (interp st) filename = (Return module, fs, i) ∧
    module !! fct_type = Some (Callable f) ∧
    fct = Callable f ∧
    st' = set_project_function_cache (<[fct_type := fct]> cache)
            (loaded fs i filename st).
Proof.
  intros Hcache Hmiss H.
  unfold get_project_function in H.
  rewrite Hcache, Hmiss, contains_refl in H. unfold_pm. cbn [negb] in H.
  destruct (assoc (paths st) "functions") as [functions|]; [|discriminate].
  destruct (assoc fct_type_map fct_type) as [name|] eqn:Hname;
    [|discriminate].
  apply fct_type_map_name in Hname as ->.
  destruct (path_exists (files st) (Py.join functions (fct_type +:+ ".py")))
    eqn:Hex; cbn [negb] in H; [|discriminate].
  unfold do_load_source in H.
  destruct (load_source (files st) (interp st)
              (Py.join functions (fct_type +:+ ".py")))
    as [[[module|] fs] i] eqn:Hload; [|discriminate].
  destruct (module !! fct_type) as [[f|]|] eqn:Hattr; try discriminate.
  simplify_eq. exists functions, module, f, fs, i. done.
Qed.


(** X9. A function that [get_project_function] returns without having it
    in the cache is the callable attribute, named like the type, of the
    module that [imp.load_source] gave for the file named like the type in
    the folder of the functions. The file exists; the module is the one
    of the interpreter, so the attribute is what that load, in the file
    system and the interpreter of the call, has left under the name. The
    function is cached under the type; the file system and the
    interpreter are as the load left them, and nothing else of the object
    has changed. *)
Theorem X9_project_function_loaded (st st' : state) cache fct_type fct :
  project_function_cache st = Some cache →
  cache !! fct_type = None →
  get_project_function fct_type st = (Return fct, st') →
  ∃ functions module f fs i,
    let filename := Py.join functions (fct_type +:+ ".py") in
    assoc (paths st) "functions" = Some functions ∧
    path_exists (files st) filename = true ∧
    load_source (files st) (interp st) filename = (Return module, fs, i) ∧
    module !! fct_type = Some (Callable f) ∧
    fct = Callable f ∧
    st' = set_project_function_cache (<[fct_type := fct]> cache)
            (loaded fs i filename st) ∧
    calls st' = calls st ++ [LoadSource filename] ∧
    warnings st' = warnings st.
Proof.
  intros Hcache Hmiss H.
  destruct (get_project_function_loaded _ _ _ _ _ Hcache Hmiss H)
    as (functions & module & f & fs & i & Hf & Hex & Hload & Hattr & -> & ->).
  exists functions, module, f, fs, i. done.
Qed.

(** X10. [get_project_function] makes no folder, writes and copies no
    file and gives no warning, and it leaves the paths, the communicator,
    the configuration and the domain as they are. It changes the file
    system and the interpreter by at most one [imp.load_source], of the
    file named like the type in the folder of the functions, and only
    when that file exists. It changes the cache only when it returns: a
    call that raises leaves the cache as it is, and a call that raises
    before the load leaves everything as it is. *)
Theorem X10_project_function_frame (st st' : state) fct_type r :
  get_project_function fct_type st = (r, st') →
  (st' = st ∨
   ∃ functions o fs i,
     let filename := Py.join functions (fct_type +:+ ".py") in
     assoc (paths st) "functions" = Some functions ∧
     path_exists (files st) filename = true ∧
     load_source (files st) (interp st) filename = (o, fs, i) ∧
     (st' = loaded fs i filename st ∨
      ∃ fct cache',
        r = Return fct ∧
        st' = set_project_function_cache cache' (loaded fs i filename st))) ∧
  (∀ f, r = Throw f →
        project_function_cache st' = project_function_cache st).
Proof.
  intros H. unfold get_project_function in H.
  destruct (project_function_cache st) as [cache|] eqn:Hcache.
  2: { simplify_eq. split; [by left|done]. }
  destruct (cache !! fct_type) as [cached|] eqn:Hlook.
  { simplify_eq. split; [by left|done]. }
  rewrite contains_refl in H. unfold_pm. cbn [negb] in H.
  destruct (assoc (paths st) "functions") as [functions|] eqn:Hf;
    [|simplify_eq; split; [by left|done]].
  destruct (assoc fct_type_map fct_type) as [name|] eqn:Hname;
    [|simplify_eq; split; [by left|done]].
  apply fct_type_map_name in Hname as ->.
  destruct (path_exists (files st) (Py.join functions (fct_type +:+ ".py")))
    eqn:Hex; cbn [negb] in H; [|simplify_eq; split; [by left|done]].
  unfold do_load_source in H.
  destruct (load_source (files st) (interp st)
              (Py.join functions (fct_type +:+ ".py")))
    as [[o fs] i] eqn:Hload.
  split.
  - right. exists functions, o, fs, i. cbn zeta.
    split; [done|]. split; [done|]. split; [done|].
    destruct o as [module|f0]; [|simplify_eq; by left].
    destruct (module !! fct_type) as [[f|]|] eqn:Hattr;
      simplify_eq; [right; by eexists _, _|by left|by left].
  - intros f ->.
    destruct o as [module|f0]; [|by simplify_eq].
    destruct (module !! fct_type) as [[f1|]|] eqn:Hattr; by simplify_eq.
Qed.

(** The loop of [__update_folder_structure] changes the file system only by
    [os.makedirs] on a path of its items that does not exist and whose key
    does not contain "file". *)
Lemma update_folders_only_creates (P : F → Prop) items (st st' : state) r :
  (∀ fs name path r' fs',
     (name, path) ∈ items →
     Py.contains "file" name = false →
     path_exists fs path = false →
     makedirs fs path = (r', fs') →
     P fs → P fs') →
  P (files st) →
  update_folders items st = (r, st') →
  P (files st') ∧
  ∃ new,
    st' = with_world (files st') (calls st ++ new) st ∧
    Forall (λ c, ∃ name path,
              c = Makedirs path ∧ (name, path) ∈ items ∧
              Py.contains "file" name = false) new.
Proof.
  revert st.
  induction items as [|[name path] rest IH]; intros st Hkeep HP H.
  - simpl in H. unfold pret in H. simplify_eq. split; [done|].
    exists []. rewrite app_nil_r. split; [by destruct st'|constructor].
  - assert (∀ fs name path r' fs',
              (name, path) ∈ rest → Py.contains "file" name = false →
              path_exists fs path = false → makedirs fs path = (r', fs') →
              P fs → P fs') as Hkeep'.
    { intros ????? Hin. apply Hkeep. by apply list_elem_of_further. }
    assert (∀ new,
      Forall (λ c, ∃ name path,
                c = Makedirs path ∧ (name, path) ∈ rest ∧
                Py.contains "file" name = false) new →
      Forall (λ c, ∃ name0 path0,
                c = Makedirs path0 ∧ (name0, path0) ∈ (name, path) :: rest ∧
                Py.contains "file" name0 = false) new) as Hweaken.
    { intros new Hall. eapply Forall_impl; [exact Hall|].
      intros c (n & q & ? & Hin & ?).
      exists n, q. split; [done|]. split; [by apply list_elem_of_further|done]. }
    cbn [update_folders] in H.
    destruct (Py.contains "file" name) eqn:Hname.
    { destruct (IH st Hkeep' HP H) as (HP' & new & Hst & Hall). eauto. }
    unfold_pm.
    destruct (path_exists (files st) path) eqn:Hex.
    { destruct (IH st Hkeep' HP H) as (HP' & new & Hst & Hall). eauto. }
    destruct (makedirs (files st) path) as [[[]|f] fs1] eqn:Hmk.
    + assert (P fs1) as HP1
        by (eapply (Hkeep _ name path); eauto using list_elem_of_here).
      destruct (IH (changed fs1 (Makedirs path) st) Hkeep' HP1 H)
        as (HP' & new & Hst & Hall).
      split; [done|]. exists (Makedirs path :: new). split.
      * rewrite Hst. unfold with_world, changed. simpl.
        by rewrite <- app_assoc.
      * constructor; [|by apply Hweaken].
        exists name, path. split; [done|].
        split; [apply list_elem_of_here|done].
    + simplify_eq. simpl. split.
      * eapply (Hkeep _ name path); eauto using list_elem_of_here.
      * exists [Makedirs path]. split; [done|].
        constructor; [|constructor].
        exists name, path. split; [done|].
        split; [apply list_elem_of_here|done].
Qed.

(** X11. [__update_folder_structure] changes the file system only by
    [os.makedirs] on a path of [self.paths] whose key does not contain
    "file" and that does not exist at that moment: every property of the
    file system that such calls keep holds afterwards, whether the method
    returns or raises, and the object is otherwise unchanged. *)
Theorem X11_update_folders_only_creates (P : F → Prop) (st st' : state) r :
  (∀ fs name path r' fs',
     (name, path) ∈ paths st →
     Py.contains "file" name = false →
     path_exists fs path = false →
     makedirs fs path = (r', fs') →
     P fs → P fs') →
  P (files st) →
  __update_folder_structure st = (r, st') →
  P (files st') ∧
  ∃ new,
    st' = with_world (files st') (calls st ++ new) st ∧
    Forall (λ c, ∃ name path,
              c = Makedirs path ∧ (name, path) ∈ paths st ∧
              Py.contains "file" name = false) new.
Proof.
  intros Hkeep HP H. unfold __update_folder_structure in H.
  by eapply update_folders_only_creates.
Qed.

(** When the folders exist, the loop does nothing. *)
Lemma update_folders_present items (st : state) :
  (∀ name path,
     (name, path) ∈ items → Py.contains "file" name = false →
     path_exists (files st) path = true) →
  update_folders items st = (Return tt, st).
Proof.
  induction items as [|[name path] rest IH]; intros Hall; [done|].
  cbn [update_folders].
  assert (update_folders rest st = (Return tt, st)) as Hrest.
  { apply IH. intros n q Hin. apply Hall. by apply list_elem_of_further. }
  destruct (Py.contains "file" name) eqn:Hname; [done|].
  unfold_pm. by rewrite (Hall name path (list_elem_of_here _ _) Hname).
Qed.

Lemma update_folders_creates items (st st' : state) :
  makedirs_creates →
  update_folders items st = (Return tt, st') →
  paths st' = paths st ∧
  (∀ other, path_exists (files st) other = true →
            path_exists (files st') other = true) ∧
  (∀ name path,
     (name, path) ∈ items → Py.contains "file" name = false →
     path_exists (files st') path = true).
Proof.
  intros Hlaw. revert st.
  induction items as [|[name path] rest IH]; intros st H.
  - simpl in H. unfold pret in H. simplify_eq.
    split; [done|]. split; [done|]. intros ?? Hin. by apply elem_of_nil in Hin.
  - cbn [update_folders] in H.
    assert (∀ st1,
      update_folders rest st1 = (Return tt, st') →
      paths st1 = paths st →
      (∀ other, path_exists (files st) other = true →
                path_exists (files st1) other = true) →
      (Py.contains "file" name = false →
       path_exists (files st1) path = true) →
      paths st' = paths st ∧
      (∀ other, path_exists (files st) other = true →
                path_exists (files st') other = true) ∧
      (∀ name0 path0,
         (name0, path0) ∈ (name, path) :: rest →
         Py.contains "file" name0 = false →
         path_exists (files st') path0 = true)) as Hgo.
    { intros st1 Hrest Hpaths Hmono Hhead.
      destruct (IH _ Hrest) as (Hp & Hm & Hall).
      split; [congruence|]. split; [by eauto|].
      intros n q [[= -> ->]|Hin]%elem_of_cons Hn; [by eauto|by eauto]. }
    destruct (Py.contains "file" name) eqn:Hname.
    { apply (Hgo st); done. }
    unfold_pm.
    destruct (path_exists (files st) path) eqn:Hex.
    { apply (Hgo st); done. }
    destruct (makedirs (files st) path) as [[[]|f] fs1] eqn:Hmk;
      [|discriminate].
    destruct (Hlaw _ _ _ Hmk) as [Hnew Hkept].
    apply (Hgo (changed fs1 (Makedirs path) st)); done.
Qed.

(** X12. When a successful [os.makedirs] leaves its path existing and
    removes nothing, a return of [__update_folder_structure] means that
    every path of [self.paths] whose key does not contain "file" exists,
    and nothing that existed before is gone. *)
Theorem X12_update_folders_creates (st st' : state) :
  makedirs_creates →
  __update_folder_structure st = (Return tt, st') →
  (∀ name path,
     (name, path) ∈ paths st → Py.contains "file" name = false →
     path_exists (files st') path = true) ∧
  (∀ other, path_exists (files st) other = true →
            path_exists (files st') other = true).
Proof.
  intros Hlaw H. unfold __update_folder_structure in H.
  destruct (update_folders_creates _ _ _ Hlaw H) as (_ & Hmono & Hall).
  done.
Qed.

(** X13. [__update_folder_structure] is idempotent: under the same
    condition, a second run after a run that returned makes no call and
    changes nothing. *)
Theorem X13_update_folders_idempotent (st st' : state) :
  makedirs_creates →
  __update_folder_structure st = (Return tt, st') →
  __update_folder_structure st' = (Return tt, st').
Proof.
  intros Hlaw H. unfold __update_folder_structure in *.
  destruct (update_folders_creates _ _ _ Hlaw H) as (Hpaths & _ & Hall).
  rewrite Hpaths. by apply update_folders_present.
Qed.

(** The step of lines 116 to 121: no call to [warnings.warn] when the
    project is being initialised, one call otherwise, which changes
    nothing but the interpreter and may raise. *)
Lemma template_warning_step init_project (st st1 : state) r1 :
  (if init_truthy init_project then pret tt else do_warn template_warning) st
    = (r1, st1) →
  paths st1 = paths st ∧ files st1 = files st ∧ calls st1 = calls st ∧
  comm st1 = comm st ∧ config st1 = config st ∧ domain st1 = domain st ∧
  project_function_cache st1 = project_function_cache st ∧
  if init_truthy init_project
  then r1 = Return tt ∧ warnings st1 = warnings st ∧ interp st1 = interp st
  else warnings st1 = warnings st ++ [template_warning].
Proof.
  intros H. destruct (init_truthy init_project).
  - unfold pret in H. by simplify_eq.
  - unfold do_warn in H.
    destruct (warn (interp st) template_warning) as [r2 i]. by simplify_eq.
Qed.

(** The loop of [__copy_fct_templates]: the copies made, in order, are of
    some of the names, each to a destination that did not exist. Unless
    the project is being initialised, [warnings.warn] is called before
    each copy; when such a call raises, its copy is not made. *)
Lemma copy_templates_only_adds (P : F → Prop) directory init_project names
    functions (st st' : state) r :
  assoc (paths st) "functions" = Some functions →
  (∀ fs name r' fs',
     name ∈ names →
     path_exists fs (Py.join functions name) = false →
     copy fs (Py.join directory name) (Py.join functions name) = (r', fs') →
     P fs → P fs') →
  P (files st) →
  copy_templates directory init_project names st = (r, st') →
  P (files st') ∧
  paths st' = paths st ∧
  ∃ copied n,
    copied `sublist_of` names ∧
    calls st' =
      calls st ++
      List.map (λ name,
                  Copy (Py.join directory name) (Py.join functions name))
        copied ∧
    warnings st' = warnings st ++ replicate n template_warning ∧
    if init_truthy init_project then n = 0 ∧ interp st' = interp st
    else n = length copied ∨ (n = Datatypes.S (length copied) ∧ ∃ f, r = Throw f).
Proof.
  intros Hfunctions. revert st Hfunctions.
  induction names as [|name rest IH]; intros st Hfunctions Hkeep HP H.
  - simpl in H. unfold pret in H. simplify_eq. split; [done|].
    split; [done|]. exists [], 0. split; [constructor|].
    simpl. rewrite !app_nil_r. split; [done|]. split; [done|].
    destruct (init_truthy init_project); [done|by left].
  - assert (∀ fs name r' fs',
              name ∈ rest →
              path_exists fs (Py.join functions name) = false →
              copy fs (Py.join directory name) (Py.join functions name)
                = (r', fs') →
              P fs → P fs') as Hkeep'.
    { intros ???? Hin. apply Hkeep. by apply list_elem_of_further. }
    cbn [copy_templates] in H. unfold_pm. rewrite Hfunctions in H.
    destruct (path_exists (files st) (Py.join functions name)) eqn:Hex.
    { destruct (IH st Hfunctions Hkeep' HP H)
        as (HP' & Hpaths & copied & n & Hsub & Hcalls & Hwarn & Hn).
      split; [done|]. split; [done|]. exists copied, n.
      split; [by apply sublist_cons|done]. }
    set (m := if init_truthy init_project then _ else _) in H.
    destruct (m st) as [r1 st1] eqn:Hm. unfold m in Hm. clear m.
    destruct (template_warning_step init_project st st1 r1 Hm)
      as (Hp1 & Hf1 & Hc1 & _ & _ & _ & _ & Hw1).
    destruct r1 as [[]|f].
    + rewrite Hf1 in H.
      destruct (copy (files st) (Py.join directory name)
                  (Py.join functions name)) as [[[]|f] fs1] eqn:Hcopy.
      * assert (P fs1) as HP1
          by (eapply (Hkeep _ name); eauto using list_elem_of_here).
        assert (assoc (paths (changed fs1
                                (Copy (Py.join directory name)
                                   (Py.join functions name)) st1))
                  "functions" = Some functions) as Hfunctions1
          by (simpl; by rewrite Hp1).
        destruct (IH _ Hfunctions1 Hkeep' HP1 H)
          as (HP' & Hpaths & copied & n & Hsub & Hcalls & Hwarn & Hn).
        split; [done|]. split; [by rewrite Hpaths|].
        simpl in Hcalls, Hwarn, Hn. rewrite Hc1 in Hcalls.
        destruct (init_truthy init_project).
        -- destruct Hw1 as (_ & Hw1 & Hi1). destruct Hn as [-> Hi].
           exists (name :: copied), 0.
           split; [by apply sublist_skip|].
           rewrite Hcalls, Hwarn, Hw1, Hi, Hi1. simpl.
           split; [by rewrite <- app_assoc|done].
        -- exists (name :: copied), (Datatypes.S n).
           split; [by apply sublist_skip|].
           rewrite Hcalls, Hwarn, Hw1. simpl.
           split; [by rewrite <- app_assoc|].
           split; [by rewrite <- app_assoc|].
           destruct Hn as [->|[-> Hr]]; [by left|by right].
      * simplify_eq. simpl. split.
        -- eapply (Hkeep _ name); eauto using list_elem_of_here.
        -- split; [done|].
           destruct (init_truthy init_project).
           ++ destruct Hw1 as (_ & Hw1 & Hi1). exists [name], 0.
              split; [apply sublist_skip, sublist_nil_l|].
              rewrite Hc1, Hw1. simpl. by rewrite app_nil_r.
           ++ exists [name], 1.
              split; [apply sublist_skip, sublist_nil_l|].
              rewrite Hc1, Hw1. simpl. split; [done|]. split; [done|].
              by left.
    + simplify_eq. rewrite Hf1. split; [done|]. split; [done|].
      destruct (init_truthy init_project).
      * by destruct Hw1 as ([=] & _).
      * exists [], 1. split; [apply sublist_nil_l|].
        rewrite Hc1, Hw1. simpl. rewrite app_nil_r.
        split; [done|]. split; [done|]. right. eauto.
Qed.

(** X14. [__copy_fct_templates] never overwrites a file: it changes the
    file system only by copying a template to a place in the folder of
    the functions where nothing exists at that moment. Every property of
    the file system that such copies keep holds afterwards, whether the
    method returns or raises. *)
Theorem X14_templates_never_overwrite (P : F → Prop) init_project functions
    (st st' : state) r :
  assoc (paths st) "functions" = Some functions →
  (∀ fs name r' fs',
     name ∈ glob_py (files st) function_templates →
     path_exists fs (Py.join functions name) = false →
     copy fs (Py.join function_templates name) (Py.join functions name)
       = (r', fs') →
     P fs → P fs') →
  P (files st) →
  __copy_fct_templates init_project st = (r, st') →
  P (files st').
Proof.
  intros Hfunctions Hkeep HP H. unfold __copy_fct_templates in H.
  by destruct (copy_templates_only_adds P _ _ _ _ _ _ _ Hfunctions Hkeep HP H).
Qed.

(** X15. [__copy_fct_templates] copies some of the templates that [glob]
    yields, in that order, and makes no other call that changes the file
    system. When the project is being initialised it never calls
    [warnings.warn], and leaves the interpreter as it is. Otherwise it
    calls [warnings.warn] before each copy, always with the same text, in
    which the name of the template does not appear: the calls to
    [warnings.warn] are as many as the copies, or one more, and then the
    method raises. What is shown of them is for the filters of the
    interpreter to decide. *)
Theorem X15_template_warnings init_project functions (st st' : state) r :
  assoc (paths st) "functions" = Some functions →
  __copy_fct_templates init_project st = (r, st') →
  ∃ copied n,
    copied `sublist_of` glob_py (files st) function_templates ∧
    calls st' =
      calls st ++
      List.map (λ name,
                  Copy (Py.join function_templates name)
                    (Py.join functions name))
        copied ∧
    warnings st' = warnings st ++ replicate n template_warning ∧
    if init_truthy init_project then n = 0 ∧ interp st' = interp st
    else n = length copied ∨
         (n = Datatypes.S (length copied) ∧ ∃ f, r = Throw f).
Proof.
  intros Hfunctions H. unfold __copy_fct_templates in H.
  destruct (copy_templates_only_adds (λ _, True) _ _ _ _ _ _ _ Hfunctions
              (λ _ _ _ _ _ _ _ _, I) I H) as (_ & _ & Hcopied).
  exact Hcopied.
Qed.

(** What [get_output_folder] does, by cases on the existence of the
    folder. *)
Lemma get_output_folder_cases type tag now output (st st' : state) r :
  assoc (paths st) "output" = Some output →
  get_output_folder type tag now st = (r, st') →
  let output_dir :=
    Py.join (Py.join output (lower type))
      (folder_time now +:+ "__" +:+ tag) in
  (path_exists (files st) output_dir = true ∧
   r = Return output_dir ∧ st' = st) ∨
  (path_exists (files st) output_dir = false ∧
   ∃ r0 fs,
     makedirs (files st) output_dir = (r0, fs) ∧
     st' = changed fs (Makedirs output_dir) st ∧
     r = match r0 with
         | Return _ => Return output_dir
         | Throw f => Throw f
         end).
Proof.
  intros Houtput H. unfold get_output_folder in H. unfold_pm.
  rewrite Houtput in H. simpl.
  destruct (path_exists (files st) _) eqn:Hex; cbn [negb] in H.
  - left. by simplify_eq.
  - right. split; [done|].
    destruct (makedirs (files st) _) as [[[]|f] fs] eqn:Hmk;
      simplify_eq; eauto.
Qed.

(** X16. The name of the folder that [get_output_folder] returns ends in
    the time, two underscores and the tag, where the time is the time of
    the call with every colon replaced by a dash and cut before the first
    dot: it has neither colon nor dot, whatever the clock gives. *)
Theorem X16_output_folder_name type tag now output (st st' : state) path :
  assoc (paths st) "output" = Some output →
  get_output_folder type tag now st = (Return path, st') →
  ∃ d,
    path = Py.join (Py.join output (lower type)) (d +:+ "__" +:+ tag) ∧
    d = Py.before_first "." (Py.replace ":" "-" now) ∧
    Py.contains ":" d = false ∧
    Py.contains "." d = false.
Proof.
  intros Houtput H.
  exists (folder_time now).
  destruct (folder_time_clean now) as [Hcolon Hdot].
  split; [|done].
  destruct (get_output_folder_cases _ _ _ _ _ _ _ Houtput H)
    as [(_ & Heq & _)|(_ & r0 & fs & _ & _ & Heq)].
  - by simplify_eq.
  - destruct r0; by simplify_eq.
Qed.

(** X17. When a successful [os.makedirs] leaves its path existing and
    removes nothing, the folder that [get_output_folder] returns exists
    after the call and nothing that existed is gone; if the folder
    existed before, the call changes nothing. *)
Theorem X17_output_folder_exists type tag now output (st st' : state) path :
  makedirs_creates →
  assoc (paths st) "output" = Some output →
  get_output_folder type tag now st = (Return path, st') →
  path_exists (files st') path = true ∧
  (∀ other, path_exists (files st) other = true →
            path_exists (files st') other = true) ∧
  (path_exists (files st) path = true → st' = st).
Proof.
  intros Hlaw Houtput H.
  destruct (get_output_folder_cases _ _ _ _ _ _ _ Houtput H)
    as [(Hex & Heq & ->)|(Hex & r0 & fs & Hmk & -> & Heq)].
  - simplify_eq. done.
  - destruct r0 as [[]|]; simplify_eq.
    destruct (Hlaw _ _ _ Hmk) as [Hnew Hkept]. simpl.
    split; [done|]. split; [done|]. congruence.
Qed.

(** X18. The folder that [get_output_folder] returns lies under the
    output folder of the project when the lowered type does not start
    with a slash (and the time does not). When the lowered type starts
    with a slash, [os.path.join] drops the output folder: the folder is
    made under the type itself. *)
Theorem X18_output_folder_location type tag now output (st st' : state)
    path :
  assoc (paths st) "output" = Some output →
  get_output_folder type tag now st = (Return path, st') →
  Py.startswith_sep now = false →
  (Py.startswith_sep (lower type) = false →
   String.prefix output path = true) ∧
  (Py.startswith_sep (lower type) = true →
   path = Py.join (lower type) (folder_time now +:+ "__" +:+ tag)).
Proof.
  intros Houtput H Hnow.
  assert (path = Py.join (Py.join output (lower type))
                   (folder_time now +:+ "__" +:+ tag)) as ->.
  { destruct (get_output_folder_cases _ _ _ _ _ _ _ Houtput H)
      as [(_ & Heq & _)|(_ & r0 & fs & _ & _ & Heq)].
    - by simplify_eq.
    - destruct r0; by simplify_eq. }
  split; intros Htype.
  - eapply prefix_trans; [apply prefix_join; exact Htype|].
    apply prefix_join. by apply folder_time_relative.
  - by rewrite (join_absolute output _ Htype).
Qed.

(** X19. [get_log_file] makes the folder of the log type if it does not
    exist, and never the log file: its only possible change of the file
    system is one [os.makedirs] on that folder. The path it returns is in
    that folder, and its name is the time of the call as the clock gives
    it, three underscores, the description and ".log". *)
Theorem X19_log_file_not_created log_type description now logs
    (st st' : state) r :
  assoc (paths st) "logs" = Some logs →
  get_log_file log_type description now st = (r, st') →
  let log_dir := Py.join logs log_type in
  (st' = st ∨
   (path_exists (files st) log_dir = false ∧
    ∃ fs, st' = changed fs (Makedirs log_dir) st)) ∧
  (∀ path,
     r = Return path →
     path = Py.join log_dir (now +:+ "___" +:+ description +:+ ".log")).
Proof.
  intros Hlogs H. unfold get_log_file in H. unfold_pm.
  rewrite Hlogs in H. simpl.
  destruct (path_exists (files st) (Py.join logs log_type)) eqn:Hex;
    cbn [negb] in H.
  - simplify_eq. split; [by left|].
    intros ? [= <-]. by rewrite !append_assoc.
  - destruct (makedirs (files st) _) as [[[]|f] fs] eqn:Hmk; simplify_eq.
    + split; [right; eauto|]. intros ? [= <-]. by rewrite !append_assoc.
    + split; [right; eauto|]. done.
Qed.

Local Arguments Py.join : simpl never.

(** The paths that [__setup_paths] sets hold the configuration file, the
    folder of the functions and the others under the root. *)
Lemma setup_paths_config_file root (st : state) :
  assoc (paths (__setup_paths root st).2) "config_file"
    = Some (Py.join root "lasif_config.toml") ∧
  assoc (paths (__setup_paths root st).2) "functions"
    = Some (Py.join root "FUNCTIONS").
Proof. split; reflexivity. Qed.

(** X20. Without a configuration file in the root, and without the
    request to initialise a project, the construction of a [Project]
    raises [LASIFError] before the communicator is made: no component is
    registered, no folder is made, no file is written and no warning is
    issued. *)
Theorem X20_uninitialised_project project_root_path init_project (fs : F)
    (i : Interp) :
  init_truthy init_project = false →
  path_exists fs
    (Py.join (absolute project_root_path) "lasif_config.toml") = false →
  ∃ st : state,
    new project_root_path init_project fs i = (Throw LASIFError, st) ∧
    files st = fs ∧ calls st = [] ∧ warnings st = [] ∧ comm st = None.
Proof.
  intros Hinit Hmissing. eexists.
  unfold new, __init__.
  unfold pbind, __setup_paths, paths_getitem, do_exists, throw, pret.
  rewrite Hinit. simpl. rewrite Hmissing. simpl. done.
Qed.

(** A method extends the log of the calls. *)
Definition extends {A : Type} (m : PM A) : Prop :=
  ∀ (st st' : state) r,
    m st = (r, st') → ∃ new, calls st' = calls st ++ new.

Lemma extends_pbind {A B : Type} (m : PM A) (k : A → PM B) :
  extends m → (∀ a, extends (k a)) → extends (pbind m k).
Proof.
  intros Hm Hk st st' r H. unfold pbind in H.
  destruct (m st) as [[a|f] st1] eqn:Hm1.
  - destruct (Hm _ _ _ Hm1) as [n1 H1]. destruct (Hk a _ _ _ H) as [n2 H2].
    exists (n1 ++ n2). by rewrite H2, H1, app_assoc.
  - simplify_eq. eauto.
Qed.

Lemma extends_same {A : Type} (m : PM A) :
  (∀ st r st', m st = (r, st') → calls st' = calls st) → extends m.
Proof.
  intros Hm st st' r H. exists []. rewrite app_nil_r. eauto.
Qed.

Lemma extends_update_folders : extends __update_folder_structure.
Proof.
  intros st st' r H.
  destruct (X11_update_folders_only_creates (λ _, True) st st' r
              (λ _ _ _ _ _ _ _ _ _ _, I) I H) as (_ & new & -> & _).
  exists new. reflexivity.
Qed.

Lemma extends_read_config : extends _read_config_file.
Proof.
  apply extends_same. intros st r st' H.
  unfold _read_config_file in H. unfold_pm.
  destruct (assoc (paths st) "config_file"); [|by simplify_eq].
  destruct (read (files st) _); [|by simplify_eq].
  destruct (toml_loads _); [|by simplify_eq].
  destruct (toml_getitem _ "lasif_project") as [c|]; [|by simplify_eq].
  cbn [set_config paths files] in H.
  destruct (toml_getitem c "mesh_file"); [|by simplify_eq].
  destruct (ExodusDomain _); by simplify_eq.
Qed.

Lemma extends_copy_templates directory init_project names :
  extends (copy_templates directory init_project names).
Proof.
  intros st st' r H.
  destruct (assoc (paths st) "functions") as [functions|] eqn:Hf.
  - destruct (copy_templates_only_adds (λ _, True) _ _ _ _ _ _ _ Hf
                (λ _ _ _ _ _ _ _ _, I) I H)
      as (_ & _ & copied & n & _ & Hcalls & _).
    eauto.
  - exists []. rewrite app_nil_r.
    destruct names as [|name rest].
    + simpl in H. unfold pret in H. by simplify_eq.
    + cbn [copy_templates] in H. unfold_pm. rewrite Hf in H. by simplify_eq.
Qed.

Lemma extends_copy_fct_templates init_project :
  extends (__copy_fct_templates init_project).
Proof.
  intros st st' r H. unfold __copy_fct_templates in H.
  by eapply extends_copy_templates.
Qed.

(** X21. The construction of a [Project] with a true [init_project] in an
    existing root writes the configuration of a new project over whatever
    configuration file is there: the first call that changes the file
    system is that writing, also when the root already holds a project.
    The project name written is [init_project] itself, the boolean [True]
    when [True] was passed; the default name is not used. *)
Theorem X21_init_overwrites_config project_root_path init_project (fs : F)
    (i : Interp)
    r (st : state) :
  init_truthy init_project = true →
  path_exists fs project_root_path = true →
  new project_root_path init_project fs i = (r, st) →
  ∃ lasif_project rest,
    toml_getitem (new_config init_project) "lasif_project"
      = Return lasif_project ∧
    toml_getitem lasif_project "project_name"
      = Return (init_toml init_project) ∧
    calls st =
      Write (Py.join (absolute project_root_path) "lasif_config.toml")
        (toml_dumps (new_config init_project)) :: rest.
Proof.
  intros Hinit Hroot H.
  assert (∃ rest,
    calls st =
      Write (Py.join (absolute project_root_path) "lasif_config.toml")
        (toml_dumps (new_config init_project)) :: rest) as [rest Hrest].
  2: { eexists _, rest. split; [reflexivity|]. split; [|exact Hrest].
       cbn. by rewrite Hinit. }
  unfold new, __init__ in H.
  set (tail := pbind (paths_getitem "config_file") _) in H.
  assert (extends tail) as Hext.
  { unfold tail. apply extends_pbind.
    { apply extends_same. intros ???. unfold paths_getitem.
      destruct (assoc _ _); by intros [= _ <-]. }
    intros cfg. apply extends_pbind.
    { apply extends_same. by intros ??? [= _ <-]. }
    intros present. destruct (negb present).
    { apply extends_same. by intros ??? [= _ <-]. }
    apply extends_pbind.
    { apply extends_same. by intros ??? [= _ <-]. }
    intros registry. apply extends_pbind.
    { apply extends_same. by intros ??? [= _ <-]. }
    intros _. apply extends_pbind; [apply extends_update_folders|].
    intros _. apply extends_pbind; [apply extends_read_config|].
    intros _. apply extends_pbind.
    { apply extends_same. by intros ??? [= _ <-]. }
    intros _. apply extends_copy_fct_templates. }
  clearbody tail.
  unfold pbind, __setup_paths, do_exists, __init_new_project, paths_getitem,
    do_write, pret in H.
  rewrite Hinit in H. simpl in H. rewrite Hroot in H. simpl in H.
  unfold pbind in H. simpl in H.
  match type of H with
  | context [write fs ?path ?text] =>
      destruct (write fs path text) as [[[]|f] fs1] eqn:Hwrite
  end.
  - destruct (Hext _ _ _ H) as [new Hnew]. exists new. by rewrite Hnew.
  - simplify_eq. by exists [].
Qed.

(** X22. A configuration written by [__init_new_project] is read back by
    [_read_config_file], when a text written is the text read and [toml]
    reads what it wrote: the object holds the table "lasif_project" of
    the new configuration, and [ExodusDomain] is called with its empty
    mesh file. If [ExodusDomain] raises, the call raises, and the object
    holds the configuration all the same. *)
Theorem X22_config_round_trip project_name config_file (st st1 : state) :
  read_after_write →
  toml_round_trip (new_config project_name) →
  assoc (paths st) "config_file" = Some config_file →
  __init_new_project project_name st = (Return tt, st1) →
  ∃ lasif_project,
    toml_getitem (new_config project_name) "lasif_project"
      = Return lasif_project ∧
    toml_getitem lasif_project "mesh_file" = Return (TStr "") ∧
    _read_config_file st1 =
    match ExodusDomain (TStr "") with
    | Return d => (Return tt, set_domain d (set_config lasif_project st1))
    | Throw f => (Throw f, set_config lasif_project st1)
    end.
Proof.
  intros Hread Htoml Hcfg H.
  eexists. split; [reflexivity|]. split; [reflexivity|].
  unfold __init_new_project in H. unfold_pm. rewrite Hcfg in H.
  destruct (write (files st) config_file _) as [[[]|f] fs1] eqn:Hwrite;
    [|discriminate].
  simplify_eq.
  unfold _read_config_file. unfold_pm.
  cbn [paths changed files]. rewrite Hcfg. cbn [paths changed files].
  rewrite (Hread _ _ _ _ Hwrite). rewrite Htoml. cbn.
  by destruct (ExodusDomain (TStr "")).
Qed.

Lemma pbind_Return {A B : Type} (m : PM A) (k : A → PM B)
    (st st' : state) b :
  pbind m k st = (Return b, st') →
  ∃ a st1, m st = (Return a, st1) ∧ k a st1 = (Return b, st').
Proof.
  unfold pbind. destruct (m st) as [[a|f] st1]; [eauto|discriminate].
Qed.

(** The copying of the templates leaves the attributes of the object as
    they are. *)
Lemma copy_templates_attributes directory init_project names
    (st st' : state) r :
  copy_templates directory init_project names st = (r, st') →
  paths st' = paths st ∧ comm st' = comm st ∧ config st' = config st ∧
  domain st' = domain st ∧
  project_function_cache st' = project_function_cache st.
Proof.
  revert st. induction names as [|name rest IH]; intros st H.
  - simpl in H. unfold pret in H. by simplify_eq.
  - cbn [copy_templates] in H. unfold_pm.
    destruct (assoc (paths st) "functions") as [functions|];
      [|by simplify_eq].
    destruct (path_exists (files st) _); [by eapply IH|].
    set (m := if init_truthy init_project then _ else _) in H.
    destruct (m st) as [r1 st1] eqn:Hm. unfold m in Hm. clear m.
    destruct (template_warning_step init_project st st1 r1 Hm)
      as (Hp1 & _ & _ & Hcomm1 & Hconfig1 & Hdomain1 & Hcache1 & _).
    rewrite <- Hp1, <- Hcomm1, <- Hconfig1, <- Hdomain1, <- Hcache1.
    destruct r1 as [[]|f]; [|by simplify_eq].
    destruct (copy _ _ _) as [[[]|f] fs];
      [by destruct (IH _ H) as (-> & -> & -> & -> & ->)|by simplify_eq].
Qed.


End ProjectProperties.

(** ** The project methods on the example environment *)

Import Disk ProjectObject.

Lemma disk_makedirs_creates : makedirs_creates (F := disk).
Proof.
  intros fs path fs' H. cbn in H. unfold disk_makedirs in H.
  destruct (disk_exists fs path) eqn:Hex; [discriminate|]. simplify_eq.
  cbn. unfold disk_exists in *. split.
  - apply bool_decide_eq_true_2. rewrite lookup_insert_eq. eauto.
  - intros other Hother. apply bool_decide_eq_true_1 in Hother.
    apply bool_decide_eq_true_2.
    destruct (decide (path = other)) as [->|Hne].
    + rewrite lookup_insert_eq. eauto.
    + by rewrite lookup_insert_ne.
Qed.

Lemma disk_read_after_write : read_after_write (F := disk).
Proof.
  intros fs path text fs' H. cbn in *. unfold disk_write, disk_read in *.
  destruct (fs !! path) as [[?|]|]; simplify_eq;
    by rewrite lookup_insert_eq.
Qed.

(** The configuration file of the example is there and says "demo". *)
Definition demo_config_kept (fs : disk) : Prop :=
  fs !! "/p/lasif_config.toml" = Some (Some "demo").

Lemma demo_config_kept_insert (fs : disk) path entry :
  disk_exists fs path = false →
  demo_config_kept fs → demo_config_kept (<[path := entry]> fs).
Proof.
  unfold demo_config_kept, disk_exists. intros Hex Hcfg.
  rewrite lookup_insert_ne; [done|]. intros ->.
  apply bool_decide_eq_false_1 in Hex. apply Hex. rewrite Hcfg. eauto.
Qed.

(** X7, for a type that no table knows. *)
Lemma X7_unknown_function_type_witness :
  get_project_function "window_function" demo
  = (Throw (Exn KeyError), demo).
Proof.
  apply (X7_unknown_function_type demo ∅ "window_function" "/p/FUNCTIONS");
    reflexivity.
Defined.


(** X9, for the preprocessing function. *)
Lemma X9_project_function_loaded_witness :
  ∃ functions module f fs i,
    let filename := Py.join functions ("preprocessing_function" +:+ ".py") in
    assoc (paths demo) "functions" = Some functions ∧
    path_exists (files demo) filename = true ∧
    load_source (files demo) (interp demo) filename = (Return module, fs, i) ∧
    module !! "preprocessing_function" = Some (Callable f) ∧
    Callable "preprocessing_function" = Callable f ∧
    (get_project_function "preprocessing_function" demo).2 =
      set_project_function_cache
        (<["preprocessing_function" := Callable "preprocessing_function"]> ∅)
        (loaded fs i filename demo) ∧
    calls (get_project_function "preprocessing_function" demo).2 =
      calls demo ++ [LoadSource filename] ∧
    warnings (get_project_function "preprocessing_function" demo).2 =
      warnings demo.
Proof.
  apply (X9_project_function_loaded demo _ ∅ "preprocessing_function"
           (Callable "preprocessing_function")).
  - reflexivity.
  - reflexivity.
  - vm_compute; reflexivity.
Defined.

(** X10, for the loading of the preprocessing function. *)
Lemma X10_project_function_frame_witness :
  ((get_project_function "preprocessing_function" demo).2 = demo ∨
   ∃ functions o fs i,
     let filename := Py.join functions ("preprocessing_function" +:+ ".py") in
     assoc (paths demo) "functions" = Some functions ∧
     path_exists (files demo) filename = true ∧
     load_source (files demo) (interp demo) filename = (o, fs, i) ∧
     ((get_project_function "preprocessing_function" demo).2 =
        loaded fs i filename demo ∨
      ∃ fct cache',
        (get_project_function "preprocessing_function" demo).1 = Return fct ∧
        (get_project_function "preprocessing_function" demo).2 =
          set_project_function_cache cache' (loaded fs i filename demo))) ∧
  (∀ f,
     (get_project_function "preprocessing_function" demo).1 = Throw f →
     project_function_cache
       (get_project_function "preprocessing_function" demo).2 =
     project_function_cache demo).
Proof.
  apply (X10_project_function_frame demo _ "preprocessing_function").
  apply surjective_pairing.
Defined.

(** X11, on the example: the configuration file is kept. *)
Lemma X11_update_folders_only_creates_witness :
  demo_config_kept (files (__update_folder_structure demo).2) ∧
  ∃ new,
    (__update_folder_structure demo).2 =
      with_world (files (__update_folder_structure demo).2)
        (calls demo ++ new) demo ∧
    Forall (λ c, ∃ name path,
              c = Makedirs path ∧ (name, path) ∈ paths demo ∧
              Py.contains "file" name = false) new.
Proof.
  apply (X11_update_folders_only_creates demo_config_kept demo _
           (__update_folder_structure demo).1).
  - intros fs name path r' fs' _ _ Hex Hmk Hkept. cbn in Hex, Hmk.
    unfold disk_makedirs in Hmk. rewrite Hex in Hmk. simplify_eq.
    by apply demo_config_kept_insert.
  - reflexivity.
  - apply surjective_pairing.
Defined.

(** X12, on the example. *)
Lemma X12_update_folders_creates_witness :
  (∀ name path,
     (name, path) ∈ paths demo → Py.contains "file" name = false →
     path_exists (files (__update_folder_structure demo).2) path = true) ∧
  (∀ other, path_exists (files demo) other = true →
            path_exists (files (__update_folder_structure demo).2) other
              = true).
Proof.
  apply (X12_update_folders_creates demo _ disk_makedirs_creates).
  vm_compute; reflexivity.
Defined.

(** X13, on the example. *)
Lemma X13_update_folders_idempotent_witness :
  __update_folder_structure (__update_folder_structure demo).2 =
  (Return tt, (__update_folder_structure demo).2).
Proof.
  apply (X13_update_folders_idempotent demo _ disk_makedirs_creates).
  vm_compute; reflexivity.
Defined.

(** X14, on the example: the configuration file is kept. *)
Lemma X14_templates_never_overwrite_witness :
  demo_config_kept (files (__copy_fct_templates (InitBool false) demo).2).
Proof.
  apply (X14_templates_never_overwrite demo_config_kept (InitBool false)
           "/p/FUNCTIONS" demo _
           (__copy_fct_templates (InitBool false) demo).1).
  - reflexivity.
  - intros fs name r' fs' _ Hex Hcopy Hkept. cbn in Hex, Hcopy.
    unfold disk_copy in Hcopy.
    destruct (fs !! _) as [[text|]|]; simplify_eq; try done.
    by apply demo_config_kept_insert.
  - reflexivity.
  - apply surjective_pairing.
Defined.

(** X15, on the example: one template is missing, so there is one copy
    and one call to [warnings.warn] before it. *)
Lemma X15_template_warnings_witness :
  ∃ copied n,
    copied `sublist_of` glob_py (files demo) function_templates ∧
    calls (__copy_fct_templates (InitBool false) demo).2 =
      calls demo ++
      List.map (λ name,
                  Copy (Py.join function_templates name)
                    (Py.join "/p/FUNCTIONS" name))
        copied ∧
    warnings (__copy_fct_templates (InitBool false) demo).2 =
      warnings demo ++ replicate n template_warning ∧
    if init_truthy (InitBool false)
    then n = 0 ∧
         interp (__copy_fct_templates (InitBool false) demo).2 = interp demo
    else n = length copied ∨
         (n = Datatypes.S (length copied) ∧
          ∃ f, (__copy_fct_templates (InitBool false) demo).1 = Throw f).
Proof.
  apply (X15_template_warnings (InitBool false) "/p/FUNCTIONS" demo _
           (__copy_fct_templates (InitBool false) demo).1).
  - reflexivity.
  - apply surjective_pairing.
Defined.

(** X16, for the kernels of a run. *)
Lemma X16_output_folder_name_witness :
  ∃ d,
    "/p/OUTPUT/kernels/2014-02-03T10-20-30__run1" =
      Py.join (Py.join "/p/OUTPUT" (lower "KERNELS")) (d +:+ "__" +:+ "run1") ∧
    d = Py.before_first "." (Py.replace ":" "-" demo_time) ∧
    Py.contains ":" d = false ∧
    Py.contains "." d = false.
Proof.
  apply (X16_output_folder_name "KERNELS" "run1" demo_time "/p/OUTPUT" demo
           (get_output_folder "KERNELS" "run1" demo_time demo).2).
  - reflexivity.
  - vm_compute; reflexivity.
Defined.

(** X17, for the kernels of a run. *)
Lemma X17_output_folder_exists_witness :
  path_exists (files (get_output_folder "KERNELS" "run1" demo_time demo).2)
    "/p/OUTPUT/kernels/2014-02-03T10-20-30__run1" = true ∧
  (∀ other,
     path_exists (files demo) other = true →
     path_exists (files (get_output_folder "KERNELS" "run1" demo_time demo).2)
       other = true) ∧
  (path_exists (files demo) "/p/OUTPUT/kernels/2014-02-03T10-20-30__run1"
     = true →
   (get_output_folder "KERNELS" "run1" demo_time demo).2 = demo).
Proof.
  apply (X17_output_folder_exists "KERNELS" "run1" demo_time "/p/OUTPUT"
           demo _ _ disk_makedirs_creates).
  - reflexivity.
  - vm_compute; reflexivity.
Defined.

(** X18, for the kernels of a run. *)
Lemma X18_output_folder_location_witness :
  (Py.startswith_sep (lower "KERNELS") = false →
   String.prefix "/p/OUTPUT" "/p/OUTPUT/kernels/2014-02-03T10-20-30__run1"
     = true) ∧
  (Py.startswith_sep (lower "KERNELS") = true →
   "/p/OUTPUT/kernels/2014-02-03T10-20-30__run1" =
     Py.join (lower "KERNELS") (folder_time demo_time +:+ "__" +:+ "run1")).
Proof.
  apply (X18_output_folder_location "KERNELS" "run1" demo_time "/p/OUTPUT"
           demo (get_output_folder "KERNELS" "run1" demo_time demo).2).
  - reflexivity.
  - vm_compute; reflexivity.
  - reflexivity.
Defined.

(** X19, for the log of a processing. *)
Lemma X19_log_file_not_created_witness :
  ((get_log_file "PROCESSING" "filter" demo_time demo).2 = demo ∨
   (path_exists (files demo) (Py.join "/p/LOGS" "PROCESSING") = false ∧
    ∃ fs, (get_log_file "PROCESSING" "filter" demo_time demo).2 =
          changed fs (Makedirs (Py.join "/p/LOGS" "PROCESSING")) demo)) ∧
  (∀ path,
     (get_log_file "PROCESSING" "filter" demo_time demo).1 = Return path →
     path = Py.join (Py.join "/p/LOGS" "PROCESSING")
              (demo_time +:+ "___" +:+ "filter" +:+ ".log")).
Proof.
  apply (X19_log_file_not_created "PROCESSING" "filter" demo_time "/p/LOGS"
           demo).
  - reflexivity.
  - apply surjective_pairing.
Defined.

(** X20, for a folder without a project. *)
Lemma X20_uninitialised_project_witness :
  ∃ st : @state (gmap string row) disk python string string,
    new "/q" (InitBool false) demo_disk fresh = (Throw LASIFError, st) ∧
    files st = demo_disk ∧ calls st = [] ∧ warnings st = [] ∧ comm st = None.
Proof.
  apply (X20_uninitialised_project "/q" (InitBool false) demo_disk fresh);
    reflexivity.
Defined.

(** X21, for a new initialisation of the example project. *)
Lemma X21_init_overwrites_config_witness :
  ∃ lasif_project rest,
    toml_getitem (new_config (InitBool true)) "lasif_project"
      = Return lasif_project ∧
    toml_getitem lasif_project "project_name"
      = Return (init_toml (InitBool true)) ∧
    calls (new (S := gmap string row) "/p" (InitBool true) demo_disk fresh).2 =
      Write (Py.join (absolute "/p") "lasif_config.toml")
        (toml_dumps (new_config (InitBool true))) :: rest.
Proof.
  apply (X21_init_overwrites_config "/p" (InitBool true) demo_disk fresh
           (new (S := gmap string row) "/p" (InitBool true) demo_disk fresh).1).
  - reflexivity.
  - reflexivity.
  - apply surjective_pairing.
Defined.

(** X22, for a project named "demo". *)
Lemma X22_config_round_trip_witness :
  ∃ lasif_project,
    toml_getitem (new_config (InitName "demo")) "lasif_project"
      = Return lasif_project ∧
    toml_getitem lasif_project "mesh_file" = Return (TStr "") ∧
    _read_config_file (__init_new_project (InitName "demo") demo).2 =
    match ExodusDomain (TStr "") with
    | Return d =>
      (Return tt,
       set_domain d
         (set_config lasif_project
            (__init_new_project (InitName "demo") demo).2))
    | Throw f =>
      (Throw f,
       set_config lasif_project (__init_new_project (InitName "demo") demo).2)
    end.
Proof.
  apply (X22_config_round_trip (InitName "demo") "/p/lasif_config.toml"
           demo _ disk_read_after_write).
  - reflexivity.
  - reflexivity.
  - vm_compute; reflexivity.
Defined.

